(** * ST3215 servo tools: discovery report and ID reassignment

    A shallow embedding of [cupi/change_id.py] and [cupi/custom_list.py].
    The two scripts are sequential orchestration over an external servo
    driver and a handful of built-ins of the interpreter, both taken as
    interfaces; the embedding is a state-and-exception monad over a [World]
    that holds the process environment, the terminal (stdin and stdout),
    the state of the serial bus and a chronological log of every driver
    interaction.  The state survives a raised exception, as in Python:
    what was printed and what was sent on the bus before the exception
    stays printed and sent. *)

From Stdlib Require Import ZArith List String Ascii Bool Lia.
From Stdlib Require Import QArith Qround Qabs DecimalString.
Import ListNotations.

Local Open Scope Z_scope.
Local Open Scope string_scope.
Local Open Scope list_scope.

(** ** Python string helpers *)

Module PyStr.

Definition nl : string := String "010"%char EmptyString.

(** [str(n)] for an [int]. *)
Definition str (n : Z) : string := NilZero.string_of_int (Z.to_int n).

(** [s * n] *)
Fixpoint repeat_str (s : string) (n : nat) : string :=
  match n with
  | O => EmptyString
  | S n' => s ++ repeat_str s n'
  end.

(** [sep.join(l)] *)
Fixpoint join (sep : string) (l : list string) : string :=
  match l with
  | [] => EmptyString
  | [x] => x
  | x :: rest => x ++ sep ++ join sep rest
  end.

(** Every line followed by a line break. *)
Fixpoint unlines (l : list string) : string :=
  match l with
  | [] => EmptyString
  | x :: rest => x ++ nl ++ unlines rest
  end.

(** [repr] of a list of [int], the form an f-string gives it. *)
Definition repr_list (l : list Z) : string :=
  "[" ++ join ", " (map str l) ++ "]".

End PyStr.

(** ** The servo driver

    The driver package [st3215] is an external collaborator and no part of
    the repository: the scripts only call it.  It is taken as an interface
    with exactly the operations the scripts use.  [bus] is whatever the
    driver and the hardware behind it remember between two calls (which
    servo answers at which address, what the serial line does), so every
    operation may answer differently after a write; nothing is assumed
    about how the answers relate to each other. *)

Class Driver := {
  bus : Type;
  (** a Python [float] handed back by the driver, and [f"{x:.1f}"] of it *)
  real : Type;
  format_1f : real -> string;
  (** [ST3215(port)]: [Some detail] when the constructor raises *)
  ST3215 : string -> bus -> option string * bus;
  PingServo : Z -> bus -> bool * bus;
  ListServos : bus -> list Z * bus;
  (** [ChangeId(cur, new)]: [None] on success, the error text otherwise *)
  ChangeId : Z -> Z -> bus -> option string * bus;
  ReadPosition : Z -> bus -> option Z * bus;
  ReadVoltage : Z -> bus -> option real * bus;
  ReadTemperature : Z -> bus -> option Z * bus;
  ReadMode : Z -> bus -> option Z * bus;
  ReadLoad : Z -> bus -> option real * bus
}.

(** ** The interpreter's built-ins

    [int], [str.strip] and [str.lower] belong to the Python interpreter, not
    to the repository, and what they accept depends on the interpreter at
    hand (the digits and blanks of all of Unicode, the limit on the length
    of an integer literal).  They are taken as an interface as well, with
    nothing assumed about them, so every statement below holds for
    whatever these functions do.  A [string] stands for the UTF-8 bytes of
    a Python [str]. *)

Class Interpreter := {
  (** [int(s)]: [None] when it raises [ValueError] *)
  parse_int : string -> option Z;
  (** [s.strip()] *)
  strip : string -> string;
  (** [s.lower()] *)
  lower : string -> string;
  (** [f"{(position / 4096) * 360:.1f}"] for a position at which the float
      computation has to round *)
  rounded_degrees : Z -> string
}.

(** ** Worlds, effects and exceptions *)

Module Py.

(** One interaction with the driver package, with the answer it gave.
    [R] is the driver's type of floats. *)
Inductive call (R : Type) :=
| Import_st3215
| Open (port : string) (raised : option string)
| Ping (id : Z) (present : bool)
| Scan (found : list Z)
| Change (current_id new_id : Z) (result : option string)
| Position (id : Z) (r : option Z)
| Voltage (id : Z) (r : option R)
| Temperature (id : Z) (r : option Z)
| Mode (id : Z) (r : option Z)
| Load (id : Z) (r : option R).
Arguments Import_st3215 {R}.
Arguments Open {R} port raised.
Arguments Ping {R} id present.
Arguments Scan {R} found.
Arguments Change {R} current_id new_id result.
Arguments Position {R} id r.
Arguments Voltage {R} id r.
Arguments Temperature {R} id r.
Arguments Mode {R} id r.
Arguments Load {R} id r.

Section Effects.
Context {D : Driver} {I : Interpreter}.

(** The driver traffic of a run, in the order it happened. *)
Definition trace : Type := list (call real).

(** What reaches the terminal: a [print], or the prompt of an [input]. *)
Inductive output :=
| Line (s : string)
| Prompt (s : string).

Record World := mkWorld {
  (** [os.getenv], after [load_dotenv()] has run at module load *)
  environ : string -> option string;
  (** whether [from st3215 import ST3215] finds the package *)
  st3215_installed : bool;
  (** the lines still to be read by [input] *)
  stdin : list string;
  stdout : list output;
  calls : trace;
  wire : bus
}.

Inductive exn :=
| EnvironmentError (msg : string)
| ImportError
| ValueError
| EOFError
| SystemExit (code : Z).

Inductive res (A : Type) :=
| Ret (a : A)
| Raise (e : exn).
Arguments Ret {A} a.
Arguments Raise {A} e.

Definition M (A : Type) : Type := World -> res A * World.

Definition ret {A} (a : A) : M A := fun w => (Ret a, w).
Definition raise {A} (e : exn) : M A := fun w => (Raise e, w).

Definition bind {A B} (c : M A) (k : A -> M B) : M B :=
  fun w =>
    match c w with
    | (Ret a, w') => k a w'
    | (Raise e, w') => (Raise e, w')
    end.

(** [try: body except ValueError: handler] *)
Definition except_ValueError {A} (body handler : M A) : M A :=
  fun w =>
    match body w with
    | (Raise ValueError, w') => handler w'
    | r => r
    end.

Definition emit (o : output) (w : World) : World :=
  mkWorld (environ w) (st3215_installed w) (stdin w) (stdout w ++ [o])
          (calls w) (wire w).

Definition record (c : call real) (b : bus) (w : World) : World :=
  mkWorld (environ w) (st3215_installed w) (stdin w) (stdout w)
          (calls w ++ [c]) b.

Definition print (s : string) : M unit := fun w => (Ret tt, emit (Line s) w).

(** [input(prompt)]: end of input raises [EOFError]. *)
Definition input (prompt : string) : M string :=
  fun w =>
    let w1 := emit (Prompt prompt) w in
    match stdin w1 with
    | [] => (Raise EOFError, w1)
    | l :: rest =>
        (Ret l, mkWorld (environ w1) (st3215_installed w1) rest (stdout w1)
                        (calls w1) (wire w1))
    end.

Definition getenv (name : string) : M (option string) :=
  fun w => (Ret (environ w name), w).

(** [int(s)] *)
Definition int (s : string) : M Z :=
  match parse_int s with
  | Some n => ret n
  | None => raise ValueError
  end.

(** [from st3215 import ST3215] *)
Definition import_st3215 : M unit :=
  fun w =>
    let w1 := record Import_st3215 (wire w) w in
    if st3215_installed w then (Ret tt, w1) else (Raise ImportError, w1).

(** [try: servo_bus = ST3215(port) except Exception as e: ...], the
    exception handed over as a value: [Some e] is the handler's case. *)
Definition try_ST3215 (port : string) : M (option string) :=
  fun w => let (r, b) := ST3215 port (wire w) in (Ret r, record (Open port r) b w).

Definition ping (id : Z) : M bool :=
  fun w => let (r, b) := PingServo id (wire w) in (Ret r, record (Ping id r) b w).

Definition list_ids : M (list Z) :=
  fun w => let (r, b) := ListServos (wire w) in (Ret r, record (Scan r) b w).

Definition change_id (current_id new_id : Z) : M (option string) :=
  fun w =>
    let (r, b) := ChangeId current_id new_id (wire w) in
    (Ret r, record (Change current_id new_id r) b w).

Definition read_position (id : Z) : M (option Z) :=
  fun w => let (r, b) := ReadPosition id (wire w) in (Ret r, record (Position id r) b w).

Definition read_voltage (id : Z) : M (option real) :=
  fun w => let (r, b) := ReadVoltage id (wire w) in (Ret r, record (Voltage id r) b w).

Definition read_temperature (id : Z) : M (option Z) :=
  fun w =>
    let (r, b) := ReadTemperature id (wire w) in (Ret r, record (Temperature id r) b w).

Definition read_mode (id : Z) : M (option Z) :=
  fun w => let (r, b) := ReadMode id (wire w) in (Ret r, record (Mode id r) b w).

Definition read_load (id : Z) : M (option real) :=
  fun w => let (r, b) := ReadLoad id (wire w) in (Ret r, record (Load id r) b w).

(** The exit status of the process, from how the script ended: falling
    off the end is 0, [sys.exit(n)] is [n], and an exception nobody
    caught ends the interpreter with a traceback and status 1. *)
Definition exit_status {A} (r : res A) : Z :=
  match r with
  | Ret _ => 0
  | Raise (SystemExit n) => n
  | Raise _ => 1
  end.

(** A process start: nothing printed, nothing sent. *)
Definition boot (env : string -> option string) (installed : bool)
           (keyboard : list string) (b : bus) : World :=
  mkWorld env installed keyboard [] [] b.

(** *** Reading a log *)

Definition is_change (c : call real) : bool :=
  match c with Change _ _ _ => true | _ => false end.

Definition is_import (c : call real) : bool :=
  match c with Import_st3215 => true | _ => false end.

(** Every interaction that reaches the serial line: all but the import. *)
Definition bus_io (log : trace) : trace :=
  filter (fun c => negb (is_import c)) log.

(** The ID writes of a run. *)
Definition writes (log : trace) : trace := filter is_change log.

(** The part of a log that precedes the first ID write. *)
Fixpoint before_write (log : trace) : trace :=
  match log with
  | [] => []
  | c :: rest => if is_change c then [] else c :: before_write rest
  end.

End Effects.
End Py.

Arguments Py.Ret {A} a.
Arguments Py.Raise {A} e.

Declare Scope py_scope.
Delimit Scope py_scope with py.
Notation "x <- c ;; k" := (Py.bind c (fun x => k))
  (at level 61, c at next level, right associativity) : py_scope.
Notation "c ;; k" := (Py.bind c (fun _ => k))
  (at level 61, right associativity) : py_scope.

(** ** [cupi/change_id.py] *)

Module change_id_py.
Section Script.
Context {D : Driver} {I : Interpreter}.
Import Py PyStr.
Local Open Scope py_scope.

(** [1 <= n <= 253] *)
Definition valid_id (n : Z) : bool := ((1 <=? n) && (n <=? 253))%Z.

(** [a and b()], with Python's short circuit. *)
Definition and_then (a : bool) (b : M bool) : M bool :=
  if a then b else ret false.

Definition get_serial_port : M string :=
  port <- getenv "ST3215_DEV" ;;
  match port with
  | None | Some EmptyString =>
      raise (EnvironmentError
               ("ST3215_DEV environment variable not set." ++ nl ++
                "Please create a .env file with: ST3215_DEV=/dev/tty.usbmodem5A680113571"))
  | Some p => ret p
  end.

Definition find_single_servo : M (option Z) :=
  print "Scanning for servos..." ;;
  servo_ids <- list_ids ;;
  match servo_ids with
  | [] =>
      print (nl ++ "❌ No servos found!") ;;
      print "   Make sure the servo is powered and connected." ;;
      ret None
  | first :: _ =>
      if (1 <? List.length servo_ids)%nat then
        print (nl ++ "⚠️  Found " ++ str (Z.of_nat (List.length servo_ids)) ++ " servos: "
                  ++ repr_list servo_ids) ;;
        print "   Please connect only ONE servo at a time to change its ID." ;;
        print "   Disconnect all but one servo and try again." ;;
        ret None
      else ret (Some first)
  end.

Definition change_servo_id (current_id new_id : Z) : M bool :=
  import_st3215 ;;
  port <- get_serial_port ;;
  print ("Connecting to: " ++ port) ;;
  print (repeat_str "-" 50) ;;
  opened <- try_ST3215 port ;;
  match opened with
  | Some e =>
      print ("Error: Could not open serial port '" ++ port ++ "'") ;;
      print ("Details: " ++ e) ;;
      ret false
  | None =>
      (* Verify the servo exists *)
      present <- ping current_id ;;
      if negb present then
        print (nl ++ "❌ No servo found with ID " ++ str current_id) ;;
        print "   Scanning to see what's connected..." ;;
        servo_ids <- list_ids ;;
        match servo_ids with
        | _ :: _ => print ("   Found servos with IDs: " ++ repr_list servo_ids)
        | [] => print "   No servos found on the bus."
        end ;;
        ret false
      else
        (* Check if new ID is already in use *)
        in_use <- and_then (negb (current_id =? new_id)%Z) (ping new_id) ;;
        if in_use then
          print (nl ++ "❌ ID " ++ str new_id ++ " is already in use by another servo!") ;;
          print "   Please choose a different ID." ;;
          ret false
        else
          (* Change the ID *)
          print (nl ++ "Changing servo ID: " ++ str current_id ++ " → " ++ str new_id) ;;
          result <- change_id current_id new_id ;;
          match result with
          | None =>
              print "✅ ID changed successfully!" ;;
              print (nl ++ "   The servo now has ID " ++ str new_id) ;;
              print "   This change is permanent (saved in EEPROM)." ;;
              (* Verify the change *)
              verified <- ping new_id ;;
              (if verified
               then print ("   ✅ Verified: Servo responds at ID " ++ str new_id)
               else ret tt) ;;
              ret true
          | Some err =>
              print ("❌ Failed to change ID: " ++ err) ;;
              ret false
          end
  end.

(** How one turn of the prompt loop ends. *)
Inductive flow :=
| Continue
| Return
| Break (new_id : Z).

(** The body of [while True]: the [try] block with its [except
    ValueError] handler, then what the turn decided.  [again] is the
    rest of the loop. *)
Definition turn (current_id : Z) (again : M (option Z)) : M (option Z) :=
  f <- except_ValueError
         (line <- input (nl ++ "Enter new ID (or 'q' to quit): ") ;;
          let new_id_input := strip line in
          if (lower new_id_input =? "q")%string then
            print "Cancelled." ;;
            ret Return
          else
            new_id <- int new_id_input ;;
            if negb (valid_id new_id) then
              print "❌ ID must be between 1 and 253" ;;
              ret Continue
            else if (new_id =? current_id)%Z then
              print ("ℹ️  Servo already has ID " ++ str current_id) ;;
              ret Return
            else ret (Break new_id))
         (print "❌ Please enter a valid number" ;;
          ret Continue) ;;
  match f with
  | Continue => again
  | Return => ret None
  | Break new_id => ret (Some new_id)
  end.

(** The [while True] loop.  Every turn reads one line or dies of
    [EOFError], so the loop is recursive in [keyboard], the lines that
    are still to be read when it starts.  With nothing left to read the
    turn cannot come back for another one. *)
Fixpoint prompt_loop (current_id : Z) (keyboard : list string) : M (option Z) :=
  match keyboard with
  | [] => turn current_id (raise EOFError)
  | _ :: later => turn current_id (prompt_loop current_id later)
  end.

Definition interactive_mode : M unit :=
  import_st3215 ;;
  port <- get_serial_port ;;
  print (repeat_str "=" 50) ;;
  print "  ST3215 Servo ID Changer - Interactive Mode" ;;
  print (repeat_str "=" 50) ;;
  print (nl ++ "Serial port: " ++ port) ;;
  print (nl ++ "⚠️  IMPORTANT: Connect only ONE servo at a time!") ;;
  print (repeat_str "-" 50) ;;
  opened <- try_ST3215 port ;;
  match opened with
  | Some e =>
      print ("Error: Could not open serial port '" ++ port ++ "'") ;;
      print ("Details: " ++ e) ;;
      ret tt
  | None =>
      (* Find the connected servo *)
      found <- find_single_servo ;;
      match found with
      | None => ret tt
      | Some current_id =>
          print (nl ++ "✅ Found servo with ID: " ++ str current_id) ;;
          (* Show current servo info *)
          position <- read_position current_id ;;
          voltage <- read_voltage current_id ;;
          match position with
          | Some p => print ("   Position: " ++ str p ++ " steps")
          | None => ret tt
          end ;;
          match voltage with
          | Some v => print ("   Voltage:  " ++ format_1f v ++ " V")
          | None => ret tt
          end ;;
          (* Ask for new ID *)
          print (nl ++ "Current ID: " ++ str current_id) ;;
          print "Valid IDs: 1-253 (254 is broadcast)" ;;
          chosen <- (fun w => prompt_loop current_id (stdin w) w) ;;
          match chosen with
          | None => ret tt
          | Some new_id =>
              (* Confirm the change *)
              print (nl ++ "About to change ID: " ++ str current_id ++ " → " ++ str new_id) ;;
              answer <- input "Proceed? (y/n): " ;;
              let confirm := lower (strip answer) in
              if negb (confirm =? "y")%string then
                print "Cancelled." ;;
                ret tt
              else
                (* Perform the change *)
                result <- change_id current_id new_id ;;
                match result with
                | None =>
                    print (nl ++ "✅ ID changed successfully!") ;;
                    print ("   Servo now has ID: " ++ str new_id) ;;
                    (* Verify *)
                    verified <- ping new_id ;;
                    if verified
                    then print "   ✅ Verified: Servo responds at new ID"
                    else ret tt
                | Some err => print (nl ++ "❌ Failed to change ID: " ++ err)
                end
          end
      end
  end.

(** The text of [print_usage]: a triple-quoted string that opens and
    closes with a line break. *)
Definition usage : string :=
  nl ++ unlines
    ["Usage: python change_servo_id.py [current_id] [new_id]";
     EmptyString;
     "Examples:";
     "  python change_servo_id.py           # Interactive mode";
     "  python change_servo_id.py 1 5       # Change ID 1 to ID 5";
     EmptyString;
     "IMPORTANT:";
     "  - Connect only ONE servo at a time when changing IDs";
     "  - Valid IDs are 1-253 (254 is broadcast address)";
     "  - The ID change is permanent (saved in servo EEPROM)";
     EmptyString;
     "Workflow for multiple servos with same ID:";
     "  1. Disconnect all servos";
     "  2. Connect just one servo";
     "  3. Run this script to change its ID";
     "  4. Disconnect it, connect the next one";
     "  5. Repeat until all servos have unique IDs"].

Definition print_usage : M unit := print usage.

(** The [if __name__ == "__main__":] block; [argv] is [sys.argv]. *)
Definition main (argv : list string) : M unit :=
  if (List.length argv =? 1)%nat then
    (* Interactive mode *)
    interactive_mode
  else if (List.length argv =? 3)%nat then
    (* Command line mode *)
    except_ValueError
      (current_id <- int (nth 1 argv EmptyString) ;;
       new_id <- int (nth 2 argv EmptyString) ;;
       (if negb (valid_id current_id) then
          print "Error: Current ID must be between 1 and 253" ;;
          raise (SystemExit 1)
        else ret tt) ;;
       (if negb (valid_id new_id) then
          print "Error: New ID must be between 1 and 253" ;;
          raise (SystemExit 1)
        else ret tt) ;;
       success <- change_servo_id current_id new_id ;;
       raise (SystemExit (if success then 0 else 1)))
      (print "Error: IDs must be integers" ;;
       print_usage ;;
       raise (SystemExit 1))
  else
    print_usage ;;
    raise (SystemExit 1).

End Script.
End change_id_py.

(** ** Python floats that are known exactly

    A finite binary64 value is a dyadic rational [m * 2^e] with
    [|m| < 2^53] and [-1074 <= e <= 971], and an IEEE operation returns the
    exact result whenever that result is such a value.  Where the
    reporter's degree computation stays inside these values it is
    modelled over [Q] with no rounding; where it does not, the text it
    prints is left to the interpreter. *)

Module PyFloat.
Local Open Scope Q_scope.

Fixpoint is_pow2 (p : positive) : bool :=
  match p with
  | xH => true
  | xO p' => is_pow2 p'
  | xI _ => false
  end.

(** A test that is passed by binary64 values only: in lowest terms the
    denominator of [q] is a power of two not above [2^1074] and its
    numerator is below [2^53]. *)
Definition binary64 (q : Q) : bool :=
  let r := Qred q in
  (Z.abs (Qnum r) <? 2 ^ 53)%Z && is_pow2 (Qden r)
  && (Z.pos (Qden r) <=? 2 ^ 1074)%Z.

(** Round to the nearest integer, ties to the even one. *)
Definition round_half_even (q : Q) : Z :=
  let f := Qfloor q in
  match ((q - inject_Z f) ?= (1 # 2))%Q with
  | Lt => f
  | Gt => (f + 1)%Z
  | Eq => if Z.even f then f else (f + 1)%Z
  end.

(** The number of tenths [f"{x:.1f}"] shows for [|x|]. *)
Definition tenths (q : Q) : Z := round_half_even (Qabs q * 10)%Q.

(** [f"{x:.1f}"], for the exact value [q] of [x]. *)
Definition format_1f_exact (q : Q) : string :=
  ((if Qlt_le_dec q 0 then "-" else EmptyString)
     ++ PyStr.str (tenths q / 10) ++ "." ++ PyStr.str (tenths q mod 10))%string.

End PyFloat.

(** ** [cupi/custom_list.py] *)

Module custom_list_py.
Section Script.
Context {D : Driver} {I : Interpreter}.
Import Py PyStr.
Local Open Scope py_scope.

Definition get_serial_port : M string :=
  port <- getenv "ST3215_DEV" ;;
  match port with
  | None | Some EmptyString =>
      raise (EnvironmentError
               ("ST3215_DEV environment variable not set." ++ nl ++
                "Please create a .env file with: ST3215_DEV=/dev/tty.usbmodem5A680113571"))
  | Some p => ret p
  end.

(** [(position / 4096) * 360], as the real number it stands for *)
Definition degrees (position : Z) : Q := ((inject_Z position / 4096) * 360)%Q.

(** Whether the float computation of [degrees] is exact: the quotient and
    the product are binary64 values, so neither the division nor the
    multiplication rounds. *)
Definition exact_degrees (position : Z) : bool :=
  PyFloat.binary64 (inject_Z position / 4096) && PyFloat.binary64 (degrees position).

(** [f"{degrees:.1f}"] *)
Definition degrees_text (position : Z) : string :=
  if exact_degrees position
  then PyFloat.format_1f_exact (degrees position)
  else rounded_degrees position.

(** [mode_names.get(mode)] *)
Definition mode_names (mode : Z) : option string :=
  match mode with
  | 0 => Some "Position Servo"
  | 1 => Some "Constant Speed Motor"
  | 2 => Some "PWM Open-Loop"
  | 3 => Some "Step Servo"
  | _ => None
  end.

(** The line printed for a position that was read. *)
Definition position_line (position : Z) : string :=
  "  Position:    " ++ str position ++ " steps (" ++ degrees_text position ++ "°)".

(** The body of [for servo_id in servo_ids]. *)
Definition report (servo_id : Z) : M unit :=
  print ("Servo ID: " ++ str servo_id) ;;
  (* Read position *)
  position <- read_position servo_id ;;
  match position with
  | Some p => print (position_line p)
  | None => ret tt
  end ;;
  (* Read voltage *)
  voltage <- read_voltage servo_id ;;
  match voltage with
  | Some v => print ("  Voltage:     " ++ format_1f v ++ " V")
  | None => ret tt
  end ;;
  (* Read temperature *)
  temperature <- read_temperature servo_id ;;
  match temperature with
  | Some t => print ("  Temperature: " ++ str t ++ " °C")
  | None => ret tt
  end ;;
  (* Read mode *)
  mode <- read_mode servo_id ;;
  match mode with
  | Some m =>
      let mode_name :=
        match mode_names m with
        | Some name => name
        | None => ("Unknown (" ++ str m ++ ")")%string
        end in
      print ("  Mode:        " ++ mode_name)
  | None => ret tt
  end ;;
  (* Read load *)
  load <- read_load servo_id ;;
  match load with
  | Some l => print ("  Load:        " ++ format_1f l ++ "%")
  | None => ret tt
  end ;;
  print EmptyString.

Fixpoint for_each (servo_ids : list Z) (body : Z -> M unit) : M unit :=
  match servo_ids with
  | [] => ret tt
  | servo_id :: rest => body servo_id ;; for_each rest body
  end.

Definition list_servos : M unit :=
  import_st3215 ;;
  port <- get_serial_port ;;
  print ("Connecting to serial port: " ++ port) ;;
  print (repeat_str "-" 50) ;;
  opened <- try_ST3215 port ;;
  match opened with
  | Some e =>
      print ("Error: Could not open serial port '" ++ port ++ "'") ;;
      print ("Details: " ++ e) ;;
      ret tt
  | None =>
      (* Scan for all connected servos *)
      print "Scanning for servos..." ;;
      servo_ids <- list_ids ;;
      match servo_ids with
      | [] => print "No servos found on the bus."
      | _ :: _ =>
          print (nl ++ "Found " ++ str (Z.of_nat (List.length servo_ids)) ++ " servo(s):" ++ nl) ;;
          (* Display info for each servo *)
          for_each servo_ids report ;;
          print (repeat_str "-" 50) ;;
          print ("Scan complete. Total servos found: "
                   ++ str (Z.of_nat (List.length servo_ids)))
      end
  end.

(** The [if __name__ == "__main__":] block. *)
Definition main : M unit := list_servos.

End Script.
End custom_list_py.

(** ** A bench driver

    A test double in the sense of the driver interface: the bus is the list
    of addresses that answer, a ping is a membership test, and an ID write
    renames the addressed servo.  The port [/dev/missing] cannot be
    opened. *)

Module Bench.

Definition answers (id : Z) (b : list Z) : bool := existsb (Z.eqb id) b.

#[export] Instance driver : Driver := {|
  bus := list Z;
  real := Q;
  format_1f := PyFloat.format_1f_exact;
  ST3215 := fun port b =>
    if (port =? "/dev/missing")%string
    then (Some "could not open port /dev/missing", b) else (None, b);
  PingServo := fun id b => (answers id b, b);
  ListServos := fun b => (b, b);
  ChangeId := fun cur new b =>
    if answers cur b
    then (None, map (fun x => if (x =? cur)%Z then new else x) b)
    else (Some "no status packet", b);
  ReadPosition := fun id b => (if answers id b then Some 2048 else None, b);
  ReadVoltage := fun id b => (if answers id b then Some (15 # 2) else None, b);
  ReadTemperature := fun id b => (if answers id b then Some 31 else None, b);
  ReadMode := fun id b => (if answers id b then Some 0 else None, b);
  ReadLoad := fun id b => (if answers id b then Some (0 # 1) else None, b)
|}.

(** *** The interpreter on the bench

    A stand-in for the interpreter, for strings of ASCII characters: on
    these it does what CPython 3.11 does with its default settings.  Bytes
    above 127 are left alone, so the digits, blanks and capitals of the
    rest of Unicode are not known to it.  The runs on the bench use ASCII
    input only. *)

(** The blanks [int] skips around an ASCII literal: tab, line feed,
    vertical tab, form feed, carriage return and the space. *)
Definition int_space (c : ascii) : bool :=
  let n := nat_of_ascii c in
  ((9 <=? n) && (n <=? 13) || (n =? 32))%nat.

(** [c.isspace()] on the code points below 128: the blanks above and the
    four separators 0x1c-0x1f. *)
Definition str_space (c : ascii) : bool :=
  let n := nat_of_ascii c in
  ((9 <=? n) && (n <=? 13) || (28 <=? n) && (n <=? 32))%nat.

Fixpoint lstrip (space : ascii -> bool) (s : string) : string :=
  match s with
  | String c s' => if space c then lstrip space s' else s
  | EmptyString => EmptyString
  end.

Fixpoint rstrip (space : ascii -> bool) (s : string) : string :=
  match s with
  | EmptyString => EmptyString
  | String c s' =>
      match rstrip space s' with
      | EmptyString => if space c then EmptyString else String c EmptyString
      | t => String c t
      end
  end.

(** [s.strip()] *)
Definition strip_ascii (s : string) : string := rstrip str_space (lstrip str_space s).

Definition lower_char (c : ascii) : ascii :=
  let n := nat_of_ascii c in
  if ((65 <=? n) && (n <=? 90))%nat then ascii_of_nat (n + 32) else c.

(** [s.lower()] *)
Fixpoint lower_ascii (s : string) : string :=
  match s with
  | EmptyString => EmptyString
  | String c s' => String (lower_char c) (lower_ascii s')
  end.

Definition digit (c : ascii) : option Z :=
  let n := nat_of_ascii c in
  if ((48 <=? n) && (n <=? 57))%nat then Some (Z.of_nat (n - 48)) else None.

(** The digit part of an integer literal: digits, with single underscores
    allowed between two digits.  [acc] is the value read so far and
    [after_digit] tells whether the previous character was a digit. *)
Fixpoint digits (s : string) (acc : Z) (after_digit : bool) : option Z :=
  match s with
  | EmptyString => if after_digit then Some acc else None
  | String c s' =>
      match digit c with
      | Some d => digits s' (10 * acc + d) true
      | None =>
          if (Ascii.eqb c "_" && after_digit)%bool then digits s' acc false
          else None
      end
  end.

(** How many digits a literal has, underscores not counted. *)
Fixpoint count_digits (s : string) : nat :=
  match s with
  | EmptyString => O
  | String c s' =>
      match digit c with
      | Some _ => S (count_digits s')
      | None => count_digits s'
      end
  end.

(** A literal of more than 4300 digits is refused. *)
Definition literal (s : string) : option Z :=
  if (count_digits s <=? 4300)%nat then digits s 0 false else None.

(** [int(s)] in base 10: the blanks around the literal are skipped, one
    sign is allowed, and [None] stands for [ValueError]. *)
Definition int_ascii (s : string) : option Z :=
  match rstrip int_space (lstrip int_space s) with
  | String "+" t => literal t
  | String "-" t => option_map Z.opp (literal t)
  | t => literal t
  end.

#[export] Instance interpreter : Interpreter := {|
  parse_int := int_ascii;
  strip := strip_ascii;
  lower := lower_ascii;
  rounded_degrees := fun _ => "?"
|}.

(** The environment of a configured host, and of one that is not. *)
Definition configured (name : string) : option string :=
  if (name =? "ST3215_DEV")%string then Some "/dev/ttyACM0" else None.

Definition unconfigured (name : string) : option string := None.

End Bench.

(** * Vocabulary of the verification

    The notions the statements below are written in: the shapes a run of
    each workflow can take, and the readings of the specification that the
    code is compared with. *)

Section Vocabulary.
Context {D : Driver} {I : Interpreter}.
Import Py PyStr change_id_py.

(** The guard's share of the log when the run goes on to write: nothing
    for equal IDs, one unanswered ping of the new ID otherwise. *)
Definition guard_log (current_id new_id : Z) : trace :=
  if (current_id =? new_id)%Z then [] else [Ping new_id false].

(** Every way [change_servo_id] can end, with the driver traffic of the
    run. *)
Inductive direct_run (current_id new_id : Z) : res bool -> trace -> Prop :=
| no_package : direct_run current_id new_id (Raise ImportError) [Import_st3215]
| no_port msg :
    direct_run current_id new_id (Raise (EnvironmentError msg)) [Import_st3215]
| port_closed port e :
    direct_run current_id new_id (Ret false) [Import_st3215; Open port (Some e)]
| servo_absent port ids :
    direct_run current_id new_id (Ret false)
      [Import_st3215; Open port None; Ping current_id false; Scan ids]
| address_taken port :
    current_id <> new_id ->
    direct_run current_id new_id (Ret false)
      [Import_st3215; Open port None; Ping current_id true; Ping new_id true]
| written port v :
    direct_run current_id new_id (Ret true)
      ([Import_st3215; Open port None; Ping current_id true]
         ++ guard_log current_id new_id
         ++ [Change current_id new_id None; Ping new_id v])
| write_failed port err :
    direct_run current_id new_id (Ret false)
      ([Import_st3215; Open port None; Ping current_id true]
         ++ guard_log current_id new_id
         ++ [Change current_id new_id (Some err)]).

(** [result is None] *)
Definition succeeded (result : option string) : bool :=
  match result with
  | None => true
  | Some _ => false
  end.

(** What the prompt loop can hand back: a cancel or a short circuit
    ([None]), a new ID that is in range and differs from the current one,
    or the [EOFError] of an exhausted input. *)
Definition settled (current_id : Z) (r : res (option Z)) : Prop :=
  match r with
  | Ret None => True
  | Ret (Some new_id) => new_id <> current_id /\ valid_id new_id = true
  | Raise e => e = EOFError
  end.

(** The loop talks to the terminal only. *)
Definition off_bus (w w' : World) : Prop :=
  calls w' = calls w /\ wire w' = wire w.

(** A line the loop turns down before it asks again: not the quit
    sentinel, and either no integer or an integer out of range. *)
Definition rejected (line : string) : bool :=
  negb (lower (strip line) =? "q")%string
  && match parse_int (strip line) with
     | None => true
     | Some n => negb (valid_id n)
     end.

Definition confirm_prompt : output := Prompt "Proceed? (y/n): ".

(** The terminal of [w'] is that of [w] after some turns of the loop:
    nothing the loop printed asks for a confirmation. *)
Definition no_new_confirm (w w' : World) : Prop :=
  In confirm_prompt (stdout w') -> In confirm_prompt (stdout w).

(** The reading of C5 as stated, of a run in which the user has entered
    the ID that was located: the run ends normally without having asked
    for a confirmation and without an ID write. *)
Definition short_circuits (run : res unit * World) : Prop :=
  fst run = Ret tt
  /\ ~ In confirm_prompt (stdout (snd run))
  /\ writes (calls (snd run)) = [].

(** The driver traffic up to the first prompt, when exactly one servo
    was found. *)
Definition located (port : string) (current_id : Z) (p : option Z)
           (v : option real) : trace :=
  [Import_st3215; Open port None; Scan [current_id];
   Position current_id p; Voltage current_id v].

(** Every way [interactive_mode] can end, with the driver traffic of the
    run. *)
Inductive interactive_run : res unit -> trace -> Prop :=
| i_no_package : interactive_run (Raise ImportError) [Import_st3215]
| i_no_port msg : interactive_run (Raise (EnvironmentError msg)) [Import_st3215]
| i_port_closed port e :
    interactive_run (Ret tt) [Import_st3215; Open port (Some e)]
| i_not_single port ids :
    List.length ids <> 1%nat ->
    interactive_run (Ret tt) [Import_st3215; Open port None; Scan ids]
| i_left_alone port current_id p v :
    interactive_run (Ret tt) (located port current_id p v)
| i_input_ended port current_id p v :
    interactive_run (Raise EOFError) (located port current_id p v)
| i_written port current_id p v new_id verified :
    new_id <> current_id -> valid_id new_id = true ->
    interactive_run (Ret tt)
      (located port current_id p v
         ++ [Change current_id new_id None; Ping new_id verified])
| i_write_failed port current_id p v new_id err :
    new_id <> current_id -> valid_id new_id = true ->
    interactive_run (Ret tt)
      (located port current_id p v ++ [Change current_id new_id (Some err)]).

(** The reading of the locator contract by return value alone: two
    distinct results stand for "none found" and "ambiguous", each
    returned exactly in its case, and the sole ID is returned exactly
    when the scan finds one servo. *)
Definition told_apart_by_result : Prop :=
  exists none_found ambiguous : res (option Z),
    none_found <> ambiguous
    /\ forall w,
        let ids := fst (ListServos (wire w)) in
        let r := fst (find_single_servo w) in
        (r = none_found <-> ids = [])
        /\ (r = ambiguous <-> (1 < List.length ids)%nat)
        /\ (forall id, r = Ret (Some id) <-> ids = [id]).

Definition none_found_report : output := Line (nl ++ "❌ No servos found!").

Definition ambiguous_report (ids : list Z) : output :=
  Line (nl ++ "⚠️  Found " ++ str (Z.of_nat (List.length ids)) ++ " servos: "
           ++ repr_list ids).

(** The reading of C8 as stated: nothing is asked of the driver, the usage
    text is printed, and the exit status is 1. *)
Definition rejected_with_usage (run : res unit * World) : Prop :=
  calls (snd run) = []
  /\ In (Line usage) (stdout (snd run))
  /\ exit_status (fst run) = 1.

(** The configuration error of [get_serial_port]: it names the variable and
    says how to supply it. *)
Definition configuration_error : exn :=
  EnvironmentError
    ("ST3215_DEV environment variable not set." ++ nl ++
     "Please create a .env file with: ST3215_DEV=/dev/tty.usbmodem5A680113571").

(** The reading of C7 as stated: the run ends in the configuration error
    and the driver package has not even been imported. *)
Definition fails_before_import {A} (run : res A * World) : Prop :=
  fst run = Raise configuration_error /\ calls (snd run) = [].

(** What the code does instead: the import is the one and only driver
    interaction, nothing is printed, and the uncaught error ends the
    process with status 1. *)
Definition fails_after_import {A} (run : res A * World) : Prop :=
  fst run = Raise configuration_error
  /\ calls (snd run) = [Import_st3215]
  /\ bus_io (calls (snd run)) = []
  /\ stdout (snd run) = []
  /\ exit_status (fst run) = 1.

End Vocabulary.

Module DegreeCheck.
Import PyStr PyFloat custom_list_py.

(** The position line for [p] steps shown as [t] tenths of a degree. *)
Definition degree_line (p t : Z) : string :=
  "  Position:    " ++ str p ++ " steps ("
    ++ (str (t / 10) ++ "." ++ str (t mod 10)) ++ "°)".

(** [t] tenths is [p * 360 / 4096] degrees rounded to the nearest tenth,
    a tie going to the even one: [|3600 p - 4096 t|] is the distance
    between the two in units of 1/40960 degree, and half a tenth is 2048
    of them. *)
Definition nearest_tenth (p t : Z) : bool :=
  (Z.abs (3600 * p - 4096 * t) <=? 2048)%Z
  && (negb (Z.abs (3600 * p - 4096 * t) =? 2048)%Z || Z.even t).

(** Everything C9 says of one position, as a test. *)
Definition degrees_as_claimed (p : Z) : bool :=
  Qeq_bool (degrees p) (inject_Z (p * 360) / 4096)
  && exact_degrees p
  && Qle_bool 0 (degrees p) && negb (Qle_bool 360 (degrees p))
  && (0 <=? tenths (degrees p))%Z && (tenths (degrees p) <=? 3599)%Z
  && nearest_tenth p (tenths (degrees p)).

Definition positions : list Z := map Z.of_nat (seq 0 4096).

End DegreeCheck.

(** * Vocabulary of the further properties *)

(** The telemetry fields of the reporter. *)
Inductive field :=
| position_field
| voltage_field
| temperature_field
| mode_field
| load_field.

Section MoreVocabulary.
Context {D : Driver} {I : Interpreter}.
Import Py PyStr change_id_py.

(** Which field of which servo a driver call reads, if it is a read. *)
Definition read_of (c : call real) : option (field * Z) :=
  match c with
  | Position id _ => Some (position_field, id)
  | Voltage id _ => Some (voltage_field, id)
  | Temperature id _ => Some (temperature_field, id)
  | Mode id _ => Some (mode_field, id)
  | Load id _ => Some (load_field, id)
  | _ => None
  end.

(** The reads of one pass of the reporter's loop, in the order of the
    source. *)
Definition telemetry (servo_id : Z) : list (field * Z) :=
  [(position_field, servo_id); (voltage_field, servo_id);
   (temperature_field, servo_id); (mode_field, servo_id);
   (load_field, servo_id)].

Definition is_ping (c : call real) : bool :=
  match c with Ping _ _ => true | _ => false end.

(** [line.strip().lower() == 'y'] *)
Definition affirms (line : string) : bool := (lower (strip line) =? "y")%string.

(** [line.strip().lower() == 'q'] *)
Definition quits (line : string) : bool := (lower (strip line) =? "q")%string.

(** [w'] is [w] after some lines of input have been read. *)
Definition reads_ahead (w w' : World) : Prop :=
  exists used, stdin w = used ++ stdin w'.

(** The port named by the environment, when it names one. *)
Definition configured_port (env : string -> option string) : option string :=
  match env "ST3215_DEV" with
  | None | Some EmptyString => None
  | Some p => Some p
  end.

(** A read that was answered with a value. *)
Definition answered (c : call real) : bool :=
  match c with
  | Position _ (Some _) | Voltage _ (Some _) | Temperature _ (Some _)
  | Mode _ (Some _) | Load _ (Some _) => true
  | _ => false
  end.

(** What every workflow prints last when the port cannot be opened. *)
Definition reports_refusal (port detail : string) (out : list output) : Prop :=
  exists before,
    out = before ++ [Line ("Error: Could not open serial port '" ++ port ++ "'");
                     Line ("Details: " ++ detail)].

(** A run that ended at a refused open: nothing was asked of the driver
    afterwards and no input was read. *)
Definition stops_at_refusal {A} (port detail : string) (kb : list string)
           (run : res A * World) : Prop :=
  calls (snd run) = [Import_st3215; Open port (Some detail)]
  /\ stdin (snd run) = kb
  /\ reports_refusal port detail (stdout (snd run)).

End MoreVocabulary.

(** A bench host whose configured port does not exist. *)
Module BenchHosts.

Definition misconfigured (name : string) : option string :=
  if (name =? "ST3215_DEV")%string then Some "/dev/missing" else None.

End BenchHosts.

(** * Verification *)

(** ** The Python helpers on small inputs *)

Example str_253 : PyStr.str 253 = "253". Proof. reflexivity. Qed.
Example str_neg : PyStr.str (-7) = "-7". Proof. reflexivity. Qed.
Example repr_two : PyStr.repr_list [3; 7] = "[3, 7]". Proof. reflexivity. Qed.
Example int_padded : Bench.int_ascii "  42 " = Some 42. Proof. reflexivity. Qed.
Example int_signed : Bench.int_ascii "-1_0" = Some (-10). Proof. reflexivity. Qed.
Example int_bad : Bench.int_ascii "4 2" = None. Proof. reflexivity. Qed.
Example int_empty : Bench.int_ascii EmptyString = None. Proof. reflexivity. Qed.
Example int_q : Bench.int_ascii "q" = None. Proof. reflexivity. Qed.
Example int_separator : Bench.int_ascii (String "031" "5") = None.
Proof. reflexivity. Qed.
Example strip_separator : Bench.strip_ascii (String "031" "5") = "5".
Proof. reflexivity. Qed.
Example lower_Q : Bench.lower_ascii (Bench.strip_ascii " Q ") = "q". Proof. reflexivity. Qed.

Example format_tie_down : PyFloat.format_1f_exact (45 # 4) = "11.2".
Proof. reflexivity. Qed.
Example format_tie_up : PyFloat.format_1f_exact (47 # 4) = "11.8".
Proof. reflexivity. Qed.
Example format_last_position : PyFloat.format_1f_exact (184275 # 512) = "359.9".
Proof. reflexivity. Qed.
Example format_negative : PyFloat.format_1f_exact (- (1 # 32)) = "-0.0".
Proof. reflexivity. Qed.

(** Case analysis on the answer of the next driver call of a run. *)
Ltac next_call :=
  match goal with
  | |- context [ST3215 ?p ?b] => destruct (ST3215 p b) as [[?|] ?] eqn:?
  | |- context [PingServo ?i ?b] => destruct (PingServo i b) as [[|] ?] eqn:?
  | |- context [ListServos ?b] => destruct (ListServos b) as [[|? [|? ?]] ?] eqn:?
  | |- context [ChangeId ?c ?n ?b] => destruct (ChangeId c n b) as [[?|] ?] eqn:?
  | |- context [ReadPosition ?i ?b] => destruct (ReadPosition i b) as [[?|] ?] eqn:?
  | |- context [ReadVoltage ?i ?b] => destruct (ReadVoltage i b) as [[?|] ?] eqn:?
  end; simpl.

(** ** The direct workflow, [change_servo_id] *)

Section DirectMode.
Context {D : Driver} {I : Interpreter}.
Import Py change_id_py.

(** Closes a case with the rule [R] of [direct_run], once the guard's share
    of the log is known. *)
Ltac by_rule R :=
  let H := fresh in
  epose proof (R _ _) as H; unfold guard_log in H;
  rewrite ?Z.eqb_refl in H;
  repeat match goal with E : (_ =? _)%Z = false |- _ => rewrite E in H end;
  exact H.

(** Every run of [change_servo_id] from a process start is one of the
    shapes of [direct_run]. *)
Lemma change_servo_id_runs env inst kb b current_id new_id :
  let run := change_servo_id current_id new_id (boot env inst kb b) in
  direct_run current_id new_id (fst run) (calls (snd run)).
Proof.
  unfold change_servo_id, get_serial_port, import_st3215, getenv, try_ST3215,
    ping, list_ids, change_id, and_then, print, bind, ret, raise, boot.
  simpl.
  destruct inst; simpl; [| constructor].
  destruct (env "ST3215_DEV") as [[|c p]|]; simpl; try constructor.
  next_call; [constructor |].
  next_call.
  2:{ next_call; constructor. }
  destruct (Z.eqb_spec current_id new_id) as [same | differ]; simpl.
  - subst new_id. next_call; [| next_call].
    + by_rule (write_failed current_id current_id).
    + by_rule (written current_id current_id).
    + by_rule (written current_id current_id).
  - next_call; [constructor; assumption |].
    apply Z.eqb_neq in differ.
    next_call; [| next_call].
    + by_rule (write_failed current_id new_id).
    + by_rule (written current_id new_id).
    + by_rule (written current_id new_id).
Qed.

(** Splits a statement about a run of [change_servo_id] into the ways the
    run can end. *)
Ltac by_cases_of_run env inst kb b current_id new_id :=
  let trace := fresh "trace" in
  pose proof (change_servo_id_runs env inst kb b current_id new_id) as trace;
  cbv zeta in *;
  destruct trace; unfold guard_log in *;
  try destruct (Z.eqb_spec current_id new_id);
  simpl in *.

(** C1. Collision guard.  In every run of [change_servo_id] with
    [new_id <> current_id] in which a ping of [new_id] is answered before
    any ID write has been issued, the function returns [False] and the
    run contains no [ChangeId] call at all. *)
Theorem collision_guard env inst kb b current_id new_id :
  let run := change_servo_id current_id new_id (boot env inst kb b) in
  new_id <> current_id ->
  In (Ping new_id true) (before_write (calls (snd run))) ->
  fst run = Ret false /\ writes (calls (snd run)) = [].
Proof.
  intros run differ occupied. subst run.
  by_cases_of_run env inst kb b current_id new_id;
    try (split; reflexivity);
    exfalso; intuition (discriminate || congruence).
Qed.

(** C2. In every run of [change_servo_id] in which the ping of
    [current_id] issued before any ID write goes unanswered, the function
    returns [False], no [ChangeId] call is made, and the whole bus traffic
    of the run is the opening of the port, that ping and one diagnostic
    scan. *)
Theorem absent_servo_is_never_written env inst kb b current_id new_id :
  let run := change_servo_id current_id new_id (boot env inst kb b) in
  In (Ping current_id false) (before_write (calls (snd run))) ->
  fst run = Ret false
  /\ writes (calls (snd run)) = []
  /\ exists port ids,
      bus_io (calls (snd run))
      = [Open port None; Ping current_id false; Scan ids].
Proof.
  intros run absent. subst run.
  by_cases_of_run env inst kb b current_id new_id;
    try (repeat split; eauto; fail);
    exfalso; intuition (discriminate || congruence).
Qed.

(** C4. In every run of [change_servo_id] that issues the ID write, the
    function returns [True] exactly when the write returned [None],
    whatever the verification ping of [new_id] answers afterwards; when
    the write returned an error the function returns [False] and the
    write is the last thing sent on the bus. *)
Theorem write_result_is_authoritative env inst kb b current_id new_id result :
  let run := change_servo_id current_id new_id (boot env inst kb b) in
  In (Change current_id new_id result) (calls (snd run)) ->
  fst run = Ret (succeeded result)
  /\ exists before after,
      calls (snd run) = before ++ Change current_id new_id result :: after
      /\ writes before = []
      /\ match result with
         | None => exists verified, after = [Ping new_id verified]
         | Some _ => after = []
         end.
Proof.
  intros run issued. subst run.
  by_cases_of_run env inst kb b current_id new_id;
    try (exfalso; intuition (discriminate || congruence)).
  all: match goal with
       | _ : context [Change _ _ None] |- _ =>
           assert (result = None) by intuition (discriminate || congruence)
       | _ : context [Change _ _ (Some ?err)] |- _ =>
           assert (result = Some err) by intuition (discriminate || congruence)
       end; subst result; split; [reflexivity |].
  all: match goal with
       | |- context [Open ?p None] =>
           first
             [ exists [Import_st3215; Open p None; Ping current_id true];
               eexists; split; [reflexivity |]
             | exists [Import_st3215; Open p None; Ping current_id true;
                       Ping new_id false];
               eexists; split; [reflexivity |] ]
       end.
  all: split; [reflexivity | eauto].
Qed.

End DirectMode.

(** ** The prompt loop of the interactive mode *)

Section PromptLoop.
Context {D : Driver} {I : Interpreter}.
Import Py PyStr change_id_py.

(** One turn either hands over to the rest of the loop, having read one
    line, or settles the loop; either way it leaves the bus alone. *)
Lemma turn_cases current_id again w :
  (exists w', turn current_id again w = again w' /\ off_bus w w'
              /\ stdin w' = tl (stdin w))
  \/ (off_bus w (snd (turn current_id again w))
      /\ settled current_id (fst (turn current_id again w))).
Proof.
  unfold turn, except_ValueError, bind, input, int, print, ret, raise, off_bus.
  destruct w as [env inst kb out log b]; simpl.
  destruct kb as [| line later]; simpl.
  - right. repeat split.
  - destruct (lower (strip line) =? "q")%string; simpl.
    + right. repeat split.
    + destruct (parse_int (strip line)) as [new_id |]; simpl.
      * destruct (valid_id new_id) eqn:range; simpl.
        -- destruct (Z.eqb_spec new_id current_id); simpl.
           ++ right. repeat split.
           ++ right. repeat split; assumption.
        -- left. eexists. repeat split.
      * left. eexists. repeat split.
Qed.

(** The loop leaves the bus alone and hands back a settled result. *)
Lemma prompt_loop_settles current_id keyboard :
  forall w,
    off_bus w (snd (prompt_loop current_id keyboard w))
    /\ settled current_id (fst (prompt_loop current_id keyboard w)).
Proof.
  induction keyboard as [| line later IH]; intros w; simpl.
  - destruct (turn_cases current_id (raise EOFError) w)
      as [(w' & step & quiet & _) | done]; [| exact done].
    rewrite step. unfold raise; simpl. split; [exact quiet | reflexivity].
  - destruct (turn_cases current_id (prompt_loop current_id later) w)
      as [(w' & step & (log & line_state) & _) | done]; [| exact done].
    rewrite step. destruct (IH w') as [[log' line_state'] ok].
    repeat split; [congruence | congruence | exact ok].
Qed.

(** A turn on a line that is turned down reads the line, prints an error
    and goes on with the rest of the loop. *)
Lemma turn_rejected current_id again w line later :
  stdin w = line :: later -> rejected line = true ->
  exists w', turn current_id again w = again w'
             /\ stdin w' = later /\ off_bus w w' /\ no_new_confirm w w'.
Proof.
  unfold rejected, turn, except_ValueError, bind, input, int, print, ret, raise,
    off_bus, no_new_confirm, confirm_prompt.
  destruct w as [env inst kb out log b]; simpl. intros -> no.
  apply andb_prop in no as [not_q bad].
  destruct (lower (strip line) =? "q")%string; [discriminate |]; simpl.
  destruct (parse_int (strip line)) as [new_id |]; simpl.
  - destruct (valid_id new_id); [discriminate |]; simpl.
    eexists; repeat split; simpl.
    intros seen. repeat (apply in_app_or in seen as [seen | [seen | []]]);
      trivial; discriminate.
  - eexists; repeat split; simpl.
    intros seen. repeat (apply in_app_or in seen as [seen | [seen | []]]);
      trivial; discriminate.
Qed.

(** A turn on the quit sentinel ends the loop with "Cancelled.". *)
Lemma turn_quit current_id again w line later :
  stdin w = line :: later -> quits line = true ->
  exists w', turn current_id again w = (Ret None, w')
             /\ stdin w' = later /\ off_bus w w' /\ no_new_confirm w w'
             /\ exists out, stdout w' = out ++ [Line "Cancelled."].
Proof.
  unfold quits, turn, except_ValueError, bind, input, int, print, ret, raise,
    off_bus, no_new_confirm, confirm_prompt.
  destruct w as [env inst kb out log b]; simpl. intros -> quit.
  rewrite quit; simpl.
  eexists; repeat split; simpl.
  - intros seen. repeat (apply in_app_or in seen as [seen | [seen | []]]);
      trivial; discriminate.
  - eexists. reflexivity.
Qed.

(** The loop eats any run of lines that are turned down. *)
Lemma rejected_lines current_id turned_down :
  forall w rest,
    stdin w = turned_down ++ rest -> forallb rejected turned_down = true ->
    exists w', prompt_loop current_id (turned_down ++ rest) w
               = prompt_loop current_id rest w'
               /\ stdin w' = rest /\ off_bus w w' /\ no_new_confirm w w'.
Proof.
  induction turned_down as [| line more IH]; intros w rest typed bad; simpl in *.
  - exists w. unfold off_bus, no_new_confirm. auto.
  - apply andb_prop in bad as [bad_line bad_more].
    destruct (turn_rejected current_id (prompt_loop current_id (more ++ rest))
                w line (more ++ rest) typed bad_line)
      as (w1 & step & typed1 & [log1 bus1] & quiet1).
    destruct (IH w1 rest typed1 bad_more)
      as (w2 & steps & typed2 & [log2 bus2] & quiet2).
    exists w2. rewrite step, steps. unfold off_bus, no_new_confirm in *.
    repeat split; try congruence; auto.
Qed.

(** A turn on the current ID, when it is in range: the loop ends with the
    "already has ID" note as the last thing printed. *)
Lemma turn_same_id current_id again w line later :
  stdin w = line :: later -> quits line = false ->
  parse_int (strip line) = Some current_id -> valid_id current_id = true ->
  exists w', turn current_id again w = (Ret None, w')
             /\ stdin w' = later /\ off_bus w w' /\ no_new_confirm w w'
             /\ exists out,
                 stdout w'
                 = out ++ [Line ("ℹ️  Servo already has ID " ++ str current_id)].
Proof.
  unfold quits, turn, except_ValueError, bind, input, int, print, ret, raise,
    off_bus, no_new_confirm, confirm_prompt.
  destruct w as [env inst kb out log b]; simpl. intros -> no_quit number in_range.
  rewrite no_quit, number; simpl. rewrite in_range, Z.eqb_refl; simpl.
  eexists; repeat split; simpl.
  - intros seen. repeat (apply in_app_or in seen as [seen | [seen | []]]);
      trivial; discriminate.
  - eexists. reflexivity.
Qed.

(** Whatever stands first among the lines to be read, the loop never runs
    out of turns: giving it more lines to recurse on changes nothing. *)
Lemma prompt_loop_total current_id :
  forall w extra,
    prompt_loop current_id (stdin w ++ extra) w
    = prompt_loop current_id (stdin w) w.
Proof.
  intros w. remember (stdin w) as kb eqn:typed. revert w typed.
  induction kb as [| line later IH]; intros w typed extra.
  - destruct extra as [| x extra]; [reflexivity |]. simpl.
    unfold turn, except_ValueError, bind, input.
    destruct w as [env inst kb out log b]; simpl in *. subst kb. reflexivity.
  - simpl.
    destruct w as [env inst kb out log b]; simpl in *. subst kb.
    unfold turn, except_ValueError, bind, input, int, print, ret, raise; simpl.
    destruct (lower (strip line) =? "q")%string; simpl; [reflexivity |].
    destruct (parse_int (strip line)) as [new_id |]; simpl.
    + destruct (valid_id new_id); simpl.
      * destruct (new_id =? current_id)%Z; reflexivity.
      * apply IH. reflexivity.
    + apply IH. reflexivity.
Qed.

End PromptLoop.

(** ** The interactive workflow, [interactive_mode] *)

Section InteractiveMode.
Context {D : Driver} {I : Interpreter}.
Import Py PyStr change_id_py.

(** Every run of [interactive_mode] from a process start is one of the
    shapes of [interactive_run]. *)
Lemma interactive_mode_runs env inst kb b :
  let run := interactive_mode (boot env inst kb b) in
  interactive_run (fst run) (calls (snd run)).
Proof.
  unfold interactive_mode, find_single_servo, get_serial_port, import_st3215,
    getenv, try_ST3215, ping, list_ids, change_id, read_position, read_voltage,
    print, input, bind, ret, raise, boot.
  simpl.
  destruct inst; simpl; [| constructor].
  destruct (env "ST3215_DEV") as [[|c p]|]; simpl; try constructor.
  next_call; [constructor |].
  next_call; [constructor; simpl; lia | | constructor; simpl; lia].
  do 2 next_call.
  all: match goal with
       | |- context [prompt_loop ?c ?k ?w] =>
           destruct (prompt_loop_settles c k w) as [[log line_state] ok];
           destruct (prompt_loop c k w) as [[[new_id|]|e] w']
       end; simpl in *.
  all: try (rewrite log; first [apply i_left_alone | subst e; apply i_input_ended]).
  all: destruct ok as [fresh in_range].
  all: destruct (stdin w') as [| answer rest]; simpl;
    [rewrite log; apply i_input_ended |].
  all: destruct (lower (strip answer) =? "y")%string; simpl;
    [| rewrite log; apply i_left_alone].
  all: next_call; [rewrite log; apply i_write_failed; assumption |].
  all: next_call; rewrite log; apply i_written; assumption.
Qed.

(** C5, as the code has it.  Interactive mode, on a configured host with
    exactly one servo found: however many lines the loop has turned down
    before, once the user enters an ID in 1..253 that is equal to the ID
    that was located, the function returns normally and at once: the
    confirmation prompt is never shown, no later line of input is read,
    and no [ChangeId] call is made.  Unless the interpreter takes the
    line for the quit sentinel, the last thing printed is the "already
    has ID" note. *)
Theorem same_id_short_circuits
        env kb b port b1 b2 current_id turned_down line later :
  let run := interactive_mode (boot env true kb b) in
  env "ST3215_DEV" = Some port -> port <> EmptyString ->
  ST3215 port b = (None, b1) ->
  ListServos b1 = ([current_id], b2) ->
  kb = turned_down ++ line :: later ->
  forallb rejected turned_down = true ->
  parse_int (strip line) = Some current_id ->
  valid_id current_id = true ->
  fst run = Ret tt
  /\ ~ In confirm_prompt (stdout (snd run))
  /\ stdin (snd run) = later
  /\ writes (calls (snd run)) = []
  /\ (quits line = false ->
      exists out,
        stdout (snd run)
        = out ++ [Line ("ℹ️  Servo already has ID " ++ str current_id)]).
Proof.
  intros run configured named opens single typed bad same in_range. subst run kb.
  unfold interactive_mode, find_single_servo, get_serial_port, import_st3215,
    getenv, try_ST3215, list_ids, read_position, read_voltage,
    print, bind, ret, raise, boot.
  simpl. rewrite configured.
  destruct port as [| c p]; [contradiction |]; simpl.
  rewrite opens; simpl. rewrite single; simpl.
  do 2 next_call.
  all: match goal with
       | |- context [prompt_loop ?c ?k ?w] =>
           destruct (rejected_lines c turned_down w (line :: later) eq_refl bad)
             as (w1 & steps & typed1 & [log1 bus1] & quiet1);
           rewrite steps; simpl prompt_loop
       end.
  all: destruct (quits line) eqn:quit.
  all: match goal with
       | typed : stdin ?w = _ :: _, q : quits _ = true
         |- context [turn ?c ?again ?w] =>
           destruct (turn_quit c again w line later typed q)
             as (w2 & step & typed2 & [log2 bus2] & quiet2 & out & printed)
       | typed : stdin ?w = _ :: _, q : quits _ = false
         |- context [turn ?c ?again ?w] =>
           destruct (turn_same_id c again w line later typed q same in_range)
             as (w2 & step & typed2 & [log2 bus2] & quiet2 & out & printed)
       end.
  all: rewrite step; simpl.
  all: split; [reflexivity |].
  all: split;
    [ intros seen; apply quiet2, quiet1 in seen; simpl in seen;
      unfold confirm_prompt in seen; intuition discriminate |].
  all: split; [assumption |].
  all: split; [rewrite log2, log1; reflexivity |].
  all: intros no_quit; first [discriminate | eauto].
Qed.

End InteractiveMode.

(** ** The locator, [find_single_servo] *)

Section Locator.
Context {D : Driver} {I : Interpreter}.
Import Py PyStr change_id_py.

(** C3, as the code has it.  For every list the scan returns, the locator
    returns the sole ID exactly when the list has one element and [None]
    in every other case; the empty and the ambiguous case share that
    result and are told apart by the report alone: "No servos found!" is
    printed exactly when the list is empty, and the "Found n servos"
    line with the full list exactly when it has more than one element. *)
Theorem locator_trichotomy env inst kb b :
  let ids := fst (ListServos b) in
  let run := find_single_servo (boot env inst kb b) in
  (forall id, fst run = Ret (Some id) <-> ids = [id])
  /\ (fst run = Ret None <-> List.length ids <> 1%nat)
  /\ (In none_found_report (stdout (snd run)) <-> ids = [])
  /\ (In (ambiguous_report ids) (stdout (snd run)) <-> (1 < List.length ids)%nat).
Proof.
  unfold find_single_servo, list_ids, print, bind, ret, boot, emit, record,
    none_found_report, ambiguous_report.
  simpl. destruct (ListServos b) as [[| first [| second more]] b']; simpl.
  - repeat split; intros; try discriminate; try lia; auto;
      intuition (discriminate || lia).
  - repeat split; intros; try discriminate; try lia; try congruence;
      intuition (discriminate || lia).
  - repeat split; intros; try discriminate; try lia; auto;
      intuition (discriminate || lia).
Qed.

End Locator.

(** ** The reporter's degree computation *)

Section Degrees.
Context {D : Driver} {I : Interpreter}.
Import Py PyStr PyFloat custom_list_py DegreeCheck.

(** The test passes on each of the 4096 positions. *)
Lemma every_position_checked : forallb degrees_as_claimed positions = true.
Proof. vm_compute. reflexivity. Qed.

Lemma position_listed p : 0 <= p <= 4095 -> In p positions.
Proof.
  intros range. unfold positions.
  rewrite <- (Z2Nat.id p) by lia.
  apply in_map, in_seq. lia.
Qed.

(** For a position in 0..4095 the float computation is exact, so the line
    shows the nearest tenth of the exact value. *)
Lemma position_line_in_range p :
  0 <= p <= 4095 -> position_line p = degree_line p (tenths (degrees p)).
Proof.
  intros range.
  pose proof (proj1 (forallb_forall _ _) every_position_checked p
                (position_listed p range)) as checked.
  unfold degrees_as_claimed in checked.
  repeat (apply andb_prop in checked as [checked ?]).
  unfold position_line, degree_line, degrees_text, format_1f_exact.
  match goal with exact : exact_degrees p = true |- _ => rewrite exact end.
  destruct (Qlt_le_dec (degrees p) 0) as [negative | _]; [| reflexivity].
  exfalso. apply (Qlt_not_le _ _ negative). apply Qle_bool_iff. assumption.
Qed.

(** One pass of the loop body prints the line of every position it was
    given. *)
Lemma report_shows_position servo_id w :
  exists reads out w',
    report servo_id w = (Ret tt, w')
    /\ calls w' = calls w ++ reads
    /\ stdout w' = stdout w ++ out
    /\ forall id p,
        In (Position id (Some p)) reads -> In (Line (position_line p)) out.
Proof.
  unfold report, read_position, read_voltage, read_temperature, read_mode,
    read_load, print, bind, ret.
  destruct w as [env inst kb out log b]; simpl.
  destruct (ReadPosition servo_id b) as [p b1]; simpl.
  destruct p; simpl.
  all: match goal with
       | |- context [ReadVoltage ?i ?x] => destruct (ReadVoltage i x) as [v b2]
       end; simpl; destruct v; simpl.
  all: match goal with
       | |- context [ReadTemperature ?i ?x] =>
           destruct (ReadTemperature i x) as [t b3]
       end; simpl; destruct t; simpl.
  all: match goal with
       | |- context [ReadMode ?i ?x] => destruct (ReadMode i x) as [m b4]
       end; simpl; destruct m; simpl.
  all: match goal with
       | |- context [ReadLoad ?i ?x] => destruct (ReadLoad i x) as [l b5]
       end; simpl; destruct l; simpl.
  all: do 3 eexists; split; [reflexivity |]; simpl.
  all: repeat rewrite <- app_assoc; simpl.
  all: split; [reflexivity |].
  all: split; [reflexivity |].
  all: intros id p seen; simpl in seen;
    repeat (destruct seen as [seen | seen]; try discriminate);
    try contradiction.
  all: injection seen as _ ->; simpl; auto.
Qed.

(** So does the loop over the scan. *)
Lemma for_each_shows_position servo_ids :
  forall w,
  exists reads out w',
    for_each servo_ids report w = (Ret tt, w')
    /\ calls w' = calls w ++ reads
    /\ stdout w' = stdout w ++ out
    /\ forall id p,
        In (Position id (Some p)) reads -> In (Line (position_line p)) out.
Proof.
  induction servo_ids as [| servo_id rest IH]; intros w.
  - exists [], [], w. simpl. rewrite !app_nil_r. repeat split. contradiction.
  - destruct (report_shows_position servo_id w)
      as (reads1 & out1 & w1 & pass & log1 & printed1 & shown1).
    destruct (IH w1) as (reads2 & out2 & w2 & passes & log2 & printed2 & shown2).
    exists (reads1 ++ reads2), (out1 ++ out2), w2.
    simpl for_each. unfold bind at 1. rewrite pass, passes.
    repeat split.
    + rewrite log2, log1, app_assoc. reflexivity.
    + rewrite printed2, printed1, app_assoc. reflexivity.
    + intros id p seen. apply in_or_app.
      apply in_app_or in seen as [seen | seen]; [left | right]; eauto.
Qed.

(** Whatever position read a run of the reporter holds, its line is in the
    output. *)
Lemma list_servos_shows_position env inst kb b id p :
  let run := list_servos (boot env inst kb b) in
  In (Position id (Some p)) (calls (snd run)) ->
  In (Line (position_line p)) (stdout (snd run)).
Proof.
  unfold list_servos, get_serial_port, import_st3215, getenv, try_ST3215,
    list_ids, print, bind, ret, raise, boot.
  simpl.
  destruct inst; simpl; [| intuition discriminate].
  destruct (env "ST3215_DEV") as [[| c port] |]; simpl;
    try (intuition discriminate).
  destruct (ST3215 (String c port) b) as [[e |] b1]; simpl;
    [intuition discriminate |].
  destruct (ListServos b1) as [ids b2]; simpl.
  destruct ids as [| first rest]; [simpl; intuition discriminate |].
  match goal with
  | |- context [for_each ?l report ?w] =>
      destruct (for_each_shows_position l w)
        as (reads & out & w' & passes & log & printed & shown);
      rewrite passes
  end.
  simpl in log, printed. simpl. rewrite log, printed.
  intros seen. simpl in seen.
  destruct seen as [seen | [seen | [seen | seen]]]; try discriminate.
  apply shown in seen.
  apply in_or_app. left. apply in_or_app. left.
  do 4 right. exact seen.
Qed.

(** A block whose position read is answered starts with the "Servo ID"
    line and the position line. *)
Lemma report_leads_with_position servo_id w p b1 :
  ReadPosition servo_id (wire w) = (Some p, b1) ->
  exists rest w',
    report servo_id w = (Ret tt, w')
    /\ stdout w'
       = stdout w
           ++ Line ("Servo ID: " ++ str servo_id) :: Line (position_line p) :: rest.
Proof.
  intros answer.
  unfold report, read_position, read_voltage, read_temperature, read_mode,
    read_load, print, bind, ret.
  destruct w as [env inst kb out log b]; simpl in *.
  rewrite answer; simpl.
  match goal with
  | |- context [ReadVoltage ?i ?x] => destruct (ReadVoltage i x) as [v b2]
  end; simpl; destruct v; simpl.
  all: match goal with
       | |- context [ReadTemperature ?i ?x] =>
           destruct (ReadTemperature i x) as [t b3]
       end; simpl; destruct t; simpl.
  all: match goal with
       | |- context [ReadMode ?i ?x] => destruct (ReadMode i x) as [m b4]
       end; simpl; destruct m; simpl.
  all: match goal with
       | |- context [ReadLoad ?i ?x] => destruct (ReadLoad i x) as [l b5]
       end; simpl; destruct l; simpl.
  all: do 2 eexists; split; [reflexivity |]; simpl.
  all: repeat rewrite <- app_assoc; simpl; reflexivity.
Qed.

(** So does the output of the loop, when the first position read is
    answered. *)
Lemma for_each_leads_with_position servo_id others w p b1 :
  ReadPosition servo_id (wire w) = (Some p, b1) ->
  exists rest w',
    for_each (servo_id :: others) report w = (Ret tt, w')
    /\ stdout w'
       = stdout w
           ++ Line ("Servo ID: " ++ str servo_id) :: Line (position_line p) :: rest.
Proof.
  intros answer.
  destruct (report_leads_with_position servo_id w p b1 answer)
    as (rest1 & w1 & pass & printed1).
  destruct (for_each_shows_position others w1)
    as (reads2 & out2 & w2 & passes & _ & printed2 & _).
  exists (rest1 ++ out2), w2.
  simpl for_each. unfold bind at 1. rewrite pass, passes.
  split; [reflexivity |].
  rewrite printed2, printed1. rewrite <- app_assoc. reflexivity.
Qed.

(** C9. Take a position [p] in 0..4095.  The degree value of the reporter,
    [(p / 4096) * 360], is [p * 360 / 4096], computed in floats without
    rounding, and lies in [0, 360).  What is printed for it is this value
    to the nearest tenth [t], between 0.0 and 359.9.  The line with this
    text follows the "Servo ID" line whenever the driver answers the
    position read of a block with [p]: in the loop body on its own, in
    the reporter for the first servo of the scan, and for every position
    read of a run of the reporter. *)
Theorem position_is_reported_in_degrees p :
  0 <= p <= 4095 ->
  exists t,
    nearest_tenth p t = true
    /\ 0 <= t <= 3599
    /\ (degrees p == inject_Z (p * 360) / 4096)%Q
    /\ exact_degrees p = true
    /\ (0 <= degrees p)%Q /\ (degrees p < 360)%Q
    /\ (forall env inst kb b servo_id b1,
          ReadPosition servo_id b = (Some p, b1) ->
          exists rest,
            stdout (snd (report servo_id (boot env inst kb b)))
            = Line ("Servo ID: " ++ str servo_id) :: Line (degree_line p t) :: rest)
    /\ (forall env kb b port b1 servo_id others b2 b3,
          env "ST3215_DEV" = Some port -> port <> EmptyString ->
          ST3215 port b = (None, b1) ->
          ListServos b1 = (servo_id :: others, b2) ->
          ReadPosition servo_id b2 = (Some p, b3) ->
          exists before rest,
            stdout (snd (list_servos (boot env true kb b)))
            = before
                ++ Line ("Servo ID: " ++ str servo_id) :: Line (degree_line p t)
                :: rest
            /\ List.length before = 4%nat)
    /\ (forall env inst kb b servo_id,
          In (Position servo_id (Some p))
             (calls (snd (list_servos (boot env inst kb b)))) ->
          In (Line (degree_line p t))
             (stdout (snd (list_servos (boot env inst kb b))))).
Proof.
  intros range. exists (tenths (degrees p)).
  pose proof (position_line_in_range p range) as text.
  pose proof (proj1 (forallb_forall _ _) every_position_checked p
                (position_listed p range)) as checked.
  unfold degrees_as_claimed in checked.
  repeat (apply andb_prop in checked as [checked ?]).
  split; [assumption |].
  split; [lia |].
  split; [apply Qeq_bool_iff; assumption |].
  split; [assumption |].
  split; [apply Qle_bool_iff; assumption |].
  split.
  { apply Qnot_le_lt. intros too_big. apply Qle_bool_iff in too_big.
    destruct (Qle_bool 360 (degrees p)); discriminate. }
  rewrite <- text.
  split; [| split].
  - intros env inst kb b servo_id b1 answer.
    destruct (report_leads_with_position servo_id (boot env inst kb b) p b1 answer)
      as (rest & w' & pass & printed).
    exists rest. rewrite pass. exact printed.
  - intros env kb b port b1 servo_id others b2 b3 configured named opens scan answer.
    remember (servo_id :: others) as ids eqn:found.
    unfold list_servos, get_serial_port, import_st3215, getenv, try_ST3215,
      list_ids, print, bind, ret, raise, boot.
    simpl. rewrite configured.
    destruct port as [| c port']; [contradiction |]; simpl.
    rewrite opens; simpl. rewrite scan; simpl.
    subst ids. cbv beta iota.
    match goal with
    | |- context [for_each ?l report ?w] =>
        destruct (for_each_leads_with_position servo_id others w p b3 answer)
          as (rest & w' & passes & printed);
        rewrite passes
    end.
    simpl in printed. simpl. rewrite printed.
    eexists [_; _; _; _], _. split; [| reflexivity].
    simpl. repeat rewrite <- app_assoc. simpl. reflexivity.
  - intros env inst kb b servo_id seen.
    exact (list_servos_shows_position env inst kb b servo_id p seen).
Qed.

End Degrees.

(** ** The two programs *)

Section Programs.
Context {D : Driver} {I : Interpreter}.
Import Py PyStr change_id_py.

(** In direct mode with two integers in range, the program is
    [change_servo_id] followed by [sys.exit]. *)
Lemma direct_mode_is_change_servo_id
      env inst kb b prog a1 a2 current_id new_id :
  parse_int a1 = Some current_id -> parse_int a2 = Some new_id ->
  valid_id current_id = true -> valid_id new_id = true ->
  let direct := change_servo_id current_id new_id (boot env inst kb b) in
  main [prog; a1; a2] (boot env inst kb b)
  = (match fst direct with
     | Ret success => Raise (SystemExit (if success then 0 else 1))
     | Raise e => Raise e
     end, snd direct).
Proof.
  intros number1 number2 range1 range2 direct.
  pose proof (change_servo_id_runs env inst kb b current_id new_id) as trace.
  cbv zeta in trace. fold direct in trace.
  cbv beta iota delta [main except_ValueError bind int raise ret print
                         List.length Nat.eqb nth].
  rewrite number1, number2. cbv beta iota. rewrite range1, range2.
  cbv beta iota delta [negb]. fold direct.
  destruct direct as [[success | e] w']; simpl in *; [reflexivity |].
  inversion trace; reflexivity.
Qed.

(** C6. Direct mode with two arguments that [int] reads as the same ID in
    1..253, on a configured host whose port opens: the program pings that ID and, when the ping is
    answered, issues [ChangeId(id, id)] as the very next driver call, with
    no second ping in between.  The exit status follows the result of the
    write as for any other pair of IDs. *)
Theorem direct_mode_equal_ids_proceed env kb b prog a1 a2 id port b1 b2 :
  let run := main [prog; a1; a2] (boot env true kb b) in
  let result := fst (ChangeId id id b2) in
  parse_int a1 = Some id -> parse_int a2 = Some id -> valid_id id = true ->
  env "ST3215_DEV" = Some port -> port <> EmptyString ->
  ST3215 port b = (None, b1) ->
  PingServo id b1 = (true, b2) ->
  fst run = Raise (SystemExit (if succeeded result then 0 else 1))
  /\ exists after,
      calls (snd run)
      = [Import_st3215; Open port None; Ping id true; Change id id result] ++ after.
Proof.
  intros run result number1 number2 in_range configured named opens answers.
  subst run result.
  rewrite (direct_mode_is_change_servo_id env true kb b prog a1 a2 id id)
    by assumption.
  unfold change_servo_id, get_serial_port, import_st3215, getenv, try_ST3215,
    ping, list_ids, change_id, and_then, print, bind, ret, raise, boot.
  simpl. rewrite configured.
  destruct port as [| c p]; [contradiction |]; simpl.
  rewrite opens; simpl. rewrite answers; simpl.
  rewrite Z.eqb_refl; simpl.
  next_call; [| next_call]; split; try reflexivity; eexists; reflexivity.
Qed.

(** X19. The guard, for the program as a whole and in both modes: an ID write
    to an address other than the current one is never issued after a ping
    of that address has been answered.  (Interactive mode pings nothing
    before it writes; it relies on the scan having found a single servo.) *)
Lemma no_write_to_an_answering_address argv env inst kb b current_id new_id result :
  let log := calls (snd (main argv (boot env inst kb b))) in
  In (Change current_id new_id result) log ->
  current_id <> new_id ->
  ~ In (Ping new_id true) (before_write log).
Proof.
  intros log issued differ. subst log.
  destruct argv as [| prog [| a1 [| a2 [| extra more]]]];
    try (simpl in issued; contradiction).
  - revert issued. cbv beta iota delta [main List.length Nat.eqb].
    pose proof (interactive_mode_runs env inst kb b) as trace. cbv zeta in trace.
    destruct trace; simpl; intuition (discriminate || congruence).
  - revert issued.
    destruct (parse_int a1) as [c |] eqn:number1;
      [destruct (parse_int a2) as [n |] eqn:number2 |].
    + destruct (valid_id c) eqn:range1; [destruct (valid_id n) eqn:range2 |].
      * rewrite (direct_mode_is_change_servo_id env inst kb b prog a1 a2 c n)
          by assumption.
        pose proof (change_servo_id_runs env inst kb b c n) as trace.
        cbv zeta in trace. simpl.
        destruct trace; unfold guard_log;
          try destruct (Z.eqb_spec c n); simpl;
          intuition (discriminate || congruence).
      * cbv beta iota delta [main except_ValueError bind int raise ret print
                               List.length Nat.eqb nth].
        rewrite number1, number2. cbv beta iota. rewrite range1, range2.
        simpl. tauto.
      * cbv beta iota delta [main except_ValueError bind int raise ret print
                               List.length Nat.eqb nth].
        rewrite number1, number2. cbv beta iota. rewrite range1.
        simpl. tauto.
    + cbv beta iota delta [main except_ValueError bind int raise ret print
                             print_usage List.length Nat.eqb nth].
      rewrite number1, number2. simpl. tauto.
    + cbv beta iota delta [main except_ValueError bind int raise ret print
                             print_usage List.length Nat.eqb nth].
      rewrite number1. simpl. tauto.
Qed.

(** C8, as the code has it.  Direct mode with two arguments that [int]
    reads as integers, one of them outside 1..253: the program ends with exit status 1 without having
    imported the driver or asked anything of it, and all it prints is one
    line that says which of the two IDs must be between 1 and 253; the
    usage text is not printed. *)
Theorem out_of_range_is_rejected env inst kb b prog a1 a2 current_id new_id :
  let run := main [prog; a1; a2] (boot env inst kb b) in
  parse_int a1 = Some current_id -> parse_int a2 = Some new_id ->
  valid_id current_id = false \/ valid_id new_id = false ->
  calls (snd run) = []
  /\ fst run = Raise (SystemExit 1)
  /\ exit_status (fst run) = 1
  /\ stdout (snd run)
     = [Line (if valid_id current_id
              then "Error: New ID must be between 1 and 253"
              else "Error: Current ID must be between 1 and 253")]
  /\ ~ In (Line usage) (stdout (snd run)).
Proof.
  intros run number1 number2 out_of_range. subst run.
  cbv beta iota delta [main except_ValueError bind int raise ret print
                         List.length Nat.eqb nth].
  rewrite number1, number2. cbv beta iota.
  destruct (valid_id current_id); simpl.
  - destruct out_of_range as [no | no]; [discriminate |]. rewrite no; simpl.
    repeat split. intros [printed | []]. discriminate.
  - repeat split. intros [printed | []]. discriminate.
Qed.

(** C10. Whatever the arguments, the environment, the typed input and the
    driver, one run of the ID changer contains at most one [ChangeId]
    call. *)
Theorem at_most_one_write argv env inst kb b :
  (List.length (writes (calls (snd (main argv (boot env inst kb b))))) <= 1)%nat.
Proof.
  destruct argv as [| prog [| a1 [| a2 [| extra more]]]];
    try (simpl; lia).
  - cbv beta iota delta [main List.length Nat.eqb].
    pose proof (interactive_mode_runs env inst kb b) as trace. cbv zeta in trace.
    destruct trace; simpl; lia.
  - destruct (parse_int a1) as [current_id |] eqn:number1;
      [destruct (parse_int a2) as [new_id |] eqn:number2 |].
    + destruct (valid_id current_id) eqn:range1;
        [destruct (valid_id new_id) eqn:range2 |].
      * rewrite (direct_mode_is_change_servo_id
                   env inst kb b prog a1 a2 current_id new_id) by assumption.
        pose proof (change_servo_id_runs env inst kb b current_id new_id)
          as trace.
        cbv zeta in trace. simpl.
        destruct trace; unfold guard_log;
          try destruct (current_id =? new_id)%Z; simpl; lia.
      * cbv beta iota delta [main except_ValueError bind int raise ret print
                               List.length Nat.eqb nth].
        rewrite number1, number2. cbv beta iota. rewrite range1, range2.
        simpl. lia.
      * cbv beta iota delta [main except_ValueError bind int raise ret print
                               List.length Nat.eqb nth].
        rewrite number1, number2. cbv beta iota. rewrite range1.
        simpl. lia.
    + cbv beta iota delta [main except_ValueError bind int raise ret print
                             print_usage List.length Nat.eqb nth].
      rewrite number1, number2. simpl. lia.
    + cbv beta iota delta [main except_ValueError bind int raise ret print
                             print_usage List.length Nat.eqb nth].
      rewrite number1. simpl. lia.
Qed.

(** C7, as the code has it.  With [ST3215_DEV] unset or empty and the
    driver package installed, every run that reaches a workflow (the
    reporter, the changer's interactive mode, and its direct mode with two
    integers in range) ends in the configuration error, which names the
    variable and tells how to set it.  The error is raised after the
    driver package has been imported and before the port is opened: no
    connection is made and nothing is sent on the bus. *)
Theorem missing_port_fails_after_import env kb b :
  env "ST3215_DEV" = None \/ env "ST3215_DEV" = Some EmptyString ->
  fails_after_import (custom_list_py.main (boot env true kb b))
  /\ (forall prog, fails_after_import (main [prog] (boot env true kb b)))
  /\ (forall prog a1 a2 current_id new_id,
         parse_int a1 = Some current_id -> parse_int a2 = Some new_id ->
         valid_id current_id = true -> valid_id new_id = true ->
         fails_after_import (main [prog; a1; a2] (boot env true kb b))).
Proof.
  intros missing. unfold fails_after_import. repeat split.
  all: try (rewrite (direct_mode_is_change_servo_id
                       env true kb b prog a1 a2 current_id new_id) by assumption).
  all: unfold custom_list_py.main, custom_list_py.list_servos,
         custom_list_py.get_serial_port, main, interactive_mode, change_servo_id,
         get_serial_port, import_st3215, getenv, bind, raise, boot.
  all: simpl; destruct missing as [unset | empty];
    [rewrite unset | rewrite empty]; reflexivity.
Qed.

End Programs.

(** * Further properties *)

(** Splits a statement about a run of [change_servo_id] into the shapes of
    [direct_run]. *)
Ltac direct_cases env inst kb b current_id new_id :=
  let shape := fresh "shape" in
  pose proof (change_servo_id_runs env inst kb b current_id new_id) as shape;
  cbv zeta in *;
  destruct shape; unfold guard_log in *;
  try destruct (Z.eqb_spec current_id new_id);
  simpl in *.

(** ** More on [change_servo_id] *)

Section DirectModeMore.
Context {D : Driver} {I : Interpreter}.
Import Py PyStr change_id_py.

(** X1. [get_serial_port] hands back the value of [ST3215_DEV] as it is
    when the variable holds a non-empty string and raises the
    configuration error when it is unset or empty; either way it prints
    nothing, reads nothing and does not touch the driver.  The copy in
    [custom_list.py] does the same on every world. *)
Theorem get_serial_port_reads_the_environment w :
  get_serial_port w
  = (match configured_port (environ w) with
     | Some port => Ret port
     | None => Raise configuration_error
     end, w)
  /\ custom_list_py.get_serial_port w = get_serial_port w.
Proof.
  unfold get_serial_port, custom_list_py.get_serial_port, configured_port,
    configuration_error, getenv, bind, ret, raise.
  destruct (environ w "ST3215_DEV") as [[| c p] |]; split; reflexivity.
Qed.

(** X2. [change_servo_id] returns [True] exactly when the run holds the
    call [ChangeId(current_id, new_id)] with the result [None]. *)
Theorem true_exactly_when_written env inst kb b current_id new_id :
  let run := change_servo_id current_id new_id (boot env inst kb b) in
  fst run = Ret true
  <-> In (Change current_id new_id None) (calls (snd run)).
Proof.
  intros run. subst run.
  direct_cases env inst kb b current_id new_id;
    split; intros fact; try discriminate; auto 10;
    exfalso; intuition (discriminate || congruence).
Qed.

(** X3. Whatever ID write a run of [change_servo_id] holds, it is the
    write of [new_id] to [current_id], it comes after an answered ping
    of [current_id], and when the two IDs differ it also comes after an
    unanswered ping of [new_id]; no scan precedes it. *)
Theorem write_follows_the_checks env inst kb b current_id new_id c n r :
  let log := calls (snd (change_servo_id current_id new_id (boot env inst kb b))) in
  In (Change c n r) log ->
  c = current_id /\ n = new_id
  /\ In (Ping current_id true) (before_write log)
  /\ (current_id <> new_id -> In (Ping new_id false) (before_write log))
  /\ (forall ids, ~ In (Scan ids) log).
Proof.
  intros log issued. subst log.
  direct_cases env inst kb b current_id new_id;
    try (exfalso; intuition (discriminate || congruence)).
  all: repeat split;
    try (intuition (discriminate || congruence); fail);
    try (intros ids found; intuition discriminate).
Qed.

(** X4. [change_servo_id] raises in two cases only: [ImportError] when the
    driver package is missing, and otherwise the configuration error when
    no port is configured.  With the package installed and a port
    configured it returns a boolean whatever the driver answers, also
    when the port cannot be opened. *)
Theorem change_servo_id_raises_only_unconfigured env inst kb b current_id new_id :
  let run := change_servo_id current_id new_id (boot env inst kb b) in
  match fst run with
  | Ret _ => inst = true /\ configured_port env <> None
  | Raise e =>
      (inst = false /\ e = ImportError)
      \/ (inst = true /\ configured_port env = None /\ e = configuration_error)
  end.
Proof.
  unfold change_servo_id, get_serial_port, import_st3215, getenv, try_ST3215,
    ping, list_ids, change_id, and_then, print, bind, ret, raise, boot,
    configured_port, configuration_error.
  simpl.
  destruct inst; simpl; [| left; split; reflexivity].
  destruct (env "ST3215_DEV") as [[| c p] |]; simpl;
    try (right; repeat split; reflexivity).
  next_call; [split; [reflexivity | discriminate] |].
  next_call.
  2:{ next_call; (split; [reflexivity | discriminate]). }
  destruct (current_id =? new_id)%Z; simpl.
  - next_call; [| next_call]; (split; [reflexivity | discriminate]).
  - next_call; [split; [reflexivity | discriminate] |].
    next_call; [| next_call]; (split; [reflexivity | discriminate]).
Qed.

End DirectModeMore.

(** ** More on the ID changer as a program *)

Section ChangerMore.
Context {D : Driver} {I : Interpreter}.
Import Py PyStr change_id_py.

(** X5. Called with an argument count other than none or two, the ID
    changer prints the usage text and exits with status 1; it reads no
    input and does not get as far as importing the driver. *)
Theorem wrong_argument_count_prints_usage argv w :
  List.length argv <> 1%nat -> List.length argv <> 3%nat ->
  main argv w = (Raise (SystemExit 1), emit (Line usage) w).
Proof.
  intros not_one not_three. unfold main.
  destruct (Nat.eqb_spec (List.length argv) 1); [contradiction |].
  destruct (Nat.eqb_spec (List.length argv) 3); [contradiction |].
  reflexivity.
Qed.

(** X6. Called with two arguments of which one is refused by [int], the
    ID changer prints "Error: IDs must be integers" and then the usage
    text and exits with status 1, without importing the driver.  Both
    arguments are parsed before either is range-checked, so this is also
    what happens when the other argument is an integer out of range. *)
Theorem non_integer_arguments_print_usage argv w :
  List.length argv = 3%nat ->
  parse_int (nth 1 argv EmptyString) = None
  \/ parse_int (nth 2 argv EmptyString) = None ->
  main argv w
  = (Raise (SystemExit 1),
     emit (Line usage) (emit (Line "Error: IDs must be integers") w)).
Proof.
  intros three bad. unfold main. rewrite three. simpl.
  unfold except_ValueError, bind, int, print_usage, print, raise, ret.
  destruct (parse_int (nth 1 argv EmptyString)) as [c |]; [| reflexivity].
  destruct bad as [bad | bad]; [discriminate |]. rewrite bad. reflexivity.
Qed.

(** X7. In direct mode the exit status is 0 or 1, and it is 0 exactly when
    [int] reads both arguments and the run holds the write of the second
    value to the first with the result [None]. *)
Theorem direct_mode_exit_status env inst kb b prog a1 a2 :
  let run := main [prog; a1; a2] (boot env inst kb b) in
  (exit_status (fst run) = 0 \/ exit_status (fst run) = 1)
  /\ (exit_status (fst run) = 0
      <-> exists c n,
          parse_int a1 = Some c /\ parse_int a2 = Some n
          /\ In (Change c n None) (calls (snd run))).
Proof.
  intros run. subst run.
  destruct (parse_int a1) as [c |] eqn:number1;
    [destruct (parse_int a2) as [n |] eqn:number2 |].
  - destruct (valid_id c) eqn:range1; [destruct (valid_id n) eqn:range2 |].
    + rewrite (direct_mode_is_change_servo_id env inst kb b prog a1 a2 c n)
        by assumption.
      simpl. direct_cases env inst kb b c n.
      all: split; [auto |].
      all: split;
        [ intros zero; try discriminate; exists c, n; auto 10
        | intros (c' & n' & same1 & same2 & issued);
          try reflexivity; exfalso;
          intuition (discriminate || congruence) ].
    + cbv beta iota delta [main except_ValueError bind int raise ret print
                             List.length Nat.eqb nth].
      rewrite number1, number2. cbv beta iota. rewrite range1, range2. simpl.
      split; [auto |]. split; [discriminate |].
      intros (c' & n' & _ & _ & []).
    + cbv beta iota delta [main except_ValueError bind int raise ret print
                             List.length Nat.eqb nth].
      rewrite number1, number2. cbv beta iota. rewrite range1. simpl.
      split; [auto |]. split; [discriminate |].
      intros (c' & n' & _ & _ & []).
  - cbv beta iota delta [main except_ValueError bind int raise ret print
                           print_usage List.length Nat.eqb nth].
    rewrite number1, number2. simpl.
    split; [auto |]. split; [discriminate |].
    intros (c' & n' & _ & no & _). discriminate.
  - cbv beta iota delta [main except_ValueError bind int raise ret print
                           print_usage List.length Nat.eqb nth].
    rewrite number1. simpl.
    split; [auto |]. split; [discriminate |].
    intros (c' & n' & no & _). discriminate.
Qed.

(** X8. Whatever the arguments, the input and the driver, every ID write
    the ID changer issues assigns an ID in 1..253, so never the broadcast
    address 254.  In direct mode the ID that is addressed is in 1..253 as
    well; in interactive mode, where it comes from the scan, the new ID
    differs from it. *)
Theorem written_ids_are_in_range argv env inst kb b c n r :
  In (Change c n r) (calls (snd (main argv (boot env inst kb b)))) ->
  valid_id n = true
  /\ (List.length argv = 3%nat -> valid_id c = true)
  /\ (List.length argv = 1%nat -> c <> n).
Proof.
  intros issued.
  destruct argv as [| prog [| a1 [| a2 [| extra more]]]];
    try (simpl in issued; contradiction).
  - revert issued. cbv beta iota delta [main List.length Nat.eqb].
    pose proof (interactive_mode_runs env inst kb b) as shape. cbv zeta in shape.
    destruct shape; simpl; intros issued;
      try (exfalso; intuition discriminate).
    all: assert (c = current_id /\ n = new_id) as [-> ->]
        by (intuition (discriminate || congruence)).
    all: repeat split; auto; discriminate.
  - revert issued.
    destruct (parse_int a1) as [c0 |] eqn:number1;
      [destruct (parse_int a2) as [n0 |] eqn:number2 |].
    + destruct (valid_id c0) eqn:range1; [destruct (valid_id n0) eqn:range2 |].
      * rewrite (direct_mode_is_change_servo_id env inst kb b prog a1 a2 c0 n0)
          by assumption.
        simpl. direct_cases env inst kb b c0 n0; intros issued;
          try (exfalso; intuition discriminate).
        all: assert (c = c0 /\ n = n0) as [-> ->]
            by (intuition (discriminate || congruence)).
        all: repeat split; auto; discriminate.
      * cbv beta iota delta [main except_ValueError bind int raise ret print
                               List.length Nat.eqb nth].
        rewrite number1, number2. cbv beta iota. rewrite range1, range2.
        simpl. tauto.
      * cbv beta iota delta [main except_ValueError bind int raise ret print
                               List.length Nat.eqb nth].
        rewrite number1, number2. cbv beta iota. rewrite range1.
        simpl. tauto.
    + cbv beta iota delta [main except_ValueError bind int raise ret print
                             print_usage List.length Nat.eqb nth].
      rewrite number1, number2. simpl. tauto.
    + cbv beta iota delta [main except_ValueError bind int raise ret print
                             print_usage List.length Nat.eqb nth].
      rewrite number1. simpl. tauto.
Qed.

End ChangerMore.

(** ** More on the interactive mode *)

Section InteractiveMore.
Context {D : Driver} {I : Interpreter}.
Import Py PyStr change_id_py.

(** One turn reads at most the first line of what is left. *)
Lemma turn_reads_ahead current_id again w :
  (forall w0, reads_ahead w0 (snd (again w0))) ->
  reads_ahead w (snd (turn current_id again w)).
Proof.
  intros rest_reads.
  unfold turn, except_ValueError, bind, input, int, print, ret, raise, reads_ahead.
  destruct w as [env inst kb out log b]; simpl.
  destruct kb as [| line later]; simpl.
  - exists []. reflexivity.
  - destruct (lower (strip line) =? "q")%string; simpl.
    + exists [line]. reflexivity.
    + destruct (parse_int (strip line)) as [new_id |]; simpl.
      * destruct (valid_id new_id); simpl.
        -- destruct (new_id =? current_id)%Z; simpl; exists [line]; reflexivity.
        -- match goal with
           | |- context [again ?w0] => destruct (rest_reads w0) as [used more]
           end.
           simpl in more. exists (line :: used). simpl. f_equal. exact more.
      * match goal with
        | |- context [again ?w0] => destruct (rest_reads w0) as [used more]
        end.
        simpl in more. exists (line :: used). simpl. f_equal. exact more.
Qed.

(** The loop reads a prefix of the input and leaves the rest. *)
Lemma prompt_loop_reads_ahead current_id keyboard :
  forall w, reads_ahead w (snd (prompt_loop current_id keyboard w)).
Proof.
  induction keyboard as [| line later IH]; intros w; simpl;
    apply turn_reads_ahead; [| exact IH].
  intros w0. exists []. reflexivity.
Qed.

(** A turn on an ID in range other than the current one ends the loop with
    that ID, having printed nothing but the prompt. *)
Lemma turn_chosen current_id again w line later new_id :
  stdin w = line :: later -> quits line = false ->
  parse_int (strip line) = Some new_id -> valid_id new_id = true ->
  new_id <> current_id ->
  exists w', turn current_id again w = (Ret (Some new_id), w')
             /\ stdin w' = later /\ off_bus w w'.
Proof.
  unfold quits, turn, except_ValueError, bind, input, int, print, ret, raise,
    off_bus.
  destruct w as [env inst kb out log b]; simpl.
  intros -> no_quit number in_range other.
  rewrite no_quit, number; simpl. rewrite in_range; simpl.
  destruct (Z.eqb_spec new_id current_id); [contradiction |].
  eexists; repeat split.
Qed.

(** X9. Interactive mode writes nothing without an explicit yes: if no
    line of the input gives "y" under [strip()] and [lower()], the run
    holds no [ChangeId] call, whatever else is typed and whatever the
    driver answers. *)
Theorem no_write_without_a_yes env inst kb b :
  forallb (fun line => negb (affirms line)) kb = true ->
  writes (calls (snd (interactive_mode (boot env inst kb b)))) = [].
Proof.
  intros no_yes.
  unfold interactive_mode, find_single_servo, get_serial_port, import_st3215,
    getenv, try_ST3215, ping, list_ids, change_id, read_position, read_voltage,
    print, input, bind, ret, raise, boot.
  simpl.
  destruct inst; simpl; [| reflexivity].
  destruct (env "ST3215_DEV") as [[|c p]|]; simpl; try reflexivity.
  next_call; [reflexivity |].
  next_call; [reflexivity | | reflexivity].
  do 2 next_call.
  all: match goal with
       | |- context [prompt_loop ?c ?k ?w] =>
           destruct (prompt_loop_settles c k w) as [[log line_state] _];
           destruct (prompt_loop_reads_ahead c k w) as [used left];
           destruct (prompt_loop c k w) as [[[new_id|]|e] w']
       end; simpl in *.
  all: try (rewrite log; reflexivity).
  all: destruct (stdin w') as [| answer rest] eqn:typed; simpl;
    [rewrite log; reflexivity |].
  all: assert (no : affirms answer = false)
    by (apply negb_true_iff;
        apply (proj1 (forallb_forall _ _) no_yes);
        rewrite left; apply in_or_app; right; left; reflexivity).
  all: unfold affirms in no; rewrite no; simpl; rewrite log; reflexivity.
Qed.

(** X10. Interactive mode on a configured host whose scan finds no servo
    or more than one: the function returns normally after the scan.  It
    asks nothing of the user, reads no input, and the scan is the last
    thing it asks of the driver. *)
Theorem scan_without_a_single_servo_stops env kb b port b1 ids b2 :
  let run := interactive_mode (boot env true kb b) in
  env "ST3215_DEV" = Some port -> port <> EmptyString ->
  ST3215 port b = (None, b1) ->
  ListServos b1 = (ids, b2) ->
  List.length ids <> 1%nat ->
  fst run = Ret tt
  /\ calls (snd run) = [Import_st3215; Open port None; Scan ids]
  /\ stdin (snd run) = kb
  /\ (forall prompt, ~ In (Prompt prompt) (stdout (snd run))).
Proof.
  intros run configured named opens scan not_one. subst run.
  unfold interactive_mode, find_single_servo, get_serial_port, import_st3215,
    getenv, try_ST3215, list_ids, print, bind, ret, raise, boot.
  simpl. rewrite configured.
  destruct port as [| c p]; [contradiction |]; simpl.
  rewrite opens; simpl. rewrite scan; simpl.
  destruct ids as [| first [| second more]]; simpl;
    [| simpl in not_one; contradiction |].
  all: repeat split; intros prompt seen; simpl in seen; intuition discriminate.
Qed.

(** X11. Interactive mode, one servo found: however many lines were turned
    down before, a line that gives "q" under [strip()] and [lower()] ends
    the run normally with "Cancelled." as the last thing printed; no
    confirmation is asked, no later line is read and nothing is
    written. *)
Theorem quit_cancels
        env kb b port b1 b2 current_id turned_down line later :
  let run := interactive_mode (boot env true kb b) in
  env "ST3215_DEV" = Some port -> port <> EmptyString ->
  ST3215 port b = (None, b1) ->
  ListServos b1 = ([current_id], b2) ->
  kb = turned_down ++ line :: later ->
  forallb rejected turned_down = true ->
  quits line = true ->
  fst run = Ret tt
  /\ (exists out, stdout (snd run) = out ++ [Line "Cancelled."])
  /\ ~ In confirm_prompt (stdout (snd run))
  /\ stdin (snd run) = later
  /\ writes (calls (snd run)) = [].
Proof.
  intros run configured named opens single typed bad quit. subst run kb.
  unfold interactive_mode, find_single_servo, get_serial_port, import_st3215,
    getenv, try_ST3215, list_ids, read_position, read_voltage,
    print, bind, ret, raise, boot.
  simpl. rewrite configured.
  destruct port as [| c p]; [contradiction |]; simpl.
  rewrite opens; simpl. rewrite single; simpl.
  do 2 next_call.
  all: match goal with
       | |- context [prompt_loop ?c ?k ?w] =>
           destruct (rejected_lines c turned_down w (line :: later) eq_refl bad)
             as (w1 & steps & typed1 & [log1 bus1] & quiet1);
           rewrite steps;
           destruct (turn_quit c (prompt_loop c later) w1 line later typed1 quit)
             as (w2 & step & typed2 & [log2 bus2] & quiet2 & out & printed)
       end.
  all: simpl prompt_loop; rewrite step; simpl.
  all: repeat split;
    [ eauto
    | intros seen; apply quiet2, quiet1 in seen; simpl in seen;
      unfold confirm_prompt in seen; intuition discriminate
    | assumption
    | rewrite log2, log1; reflexivity ].
Qed.

(** X12. Interactive mode, one servo found, and after any number of
    turned-down lines a line that is not the quit sentinel and that [int]
    reads as an ID in 1..253 other than the current one: the next line
    decides.  If it gives "y" under [strip()] and [lower()] the write of
    the new ID to the located one is issued, followed by one verification
    ping when the write succeeded; on any other answer nothing more is
    asked of the driver.  Either way the function returns normally,
    having read the input up to that answer and no further. *)
Theorem confirmation_decides
        env kb b port b1 b2 b3 b4 current_id p v
        turned_down line answer later new_id :
  let run := interactive_mode (boot env true kb b) in
  let result := fst (ChangeId current_id new_id b4) in
  let verified := fst (PingServo new_id (snd (ChangeId current_id new_id b4))) in
  env "ST3215_DEV" = Some port -> port <> EmptyString ->
  ST3215 port b = (None, b1) ->
  ListServos b1 = ([current_id], b2) ->
  ReadPosition current_id b2 = (p, b3) ->
  ReadVoltage current_id b3 = (v, b4) ->
  kb = turned_down ++ line :: answer :: later ->
  forallb rejected turned_down = true ->
  quits line = false ->
  parse_int (strip line) = Some new_id ->
  valid_id new_id = true -> new_id <> current_id ->
  fst run = Ret tt
  /\ stdin (snd run) = later
  /\ calls (snd run)
     = located port current_id p v
         ++ (if affirms answer
             then Change current_id new_id result
                    :: (if succeeded result then [Ping new_id verified] else [])
             else []).
Proof.
  intros run result verified configured named opens single position voltage
    typed bad no_quit number in_range other.
  subst run result verified kb.
  unfold interactive_mode, find_single_servo, get_serial_port, import_st3215,
    getenv, try_ST3215, list_ids, read_position, read_voltage, change_id, ping,
    input, print, bind, ret, raise, boot, located, affirms.
  simpl. rewrite configured.
  destruct port as [| c port']; [contradiction |]; simpl.
  rewrite opens; simpl. rewrite single; simpl.
  rewrite position; simpl. rewrite voltage; simpl.
  destruct p, v; simpl.
  all: match goal with
       | |- context [prompt_loop ?c ?k ?w] =>
           destruct (rejected_lines c turned_down w (line :: answer :: later)
                       eq_refl bad)
             as (w1 & steps & typed1 & [log1 bus1] & _);
           rewrite steps; simpl prompt_loop
       end.
  all: match goal with
       | typed : stdin ?w = _ :: _ |- context [turn ?c ?again ?w] =>
           destruct (turn_chosen c again w line (answer :: later) new_id
                       typed no_quit number in_range other)
             as (w2 & step & typed2 & [log2 bus2])
       end.
  all: rewrite step; simpl.
  all: rewrite typed2; simpl.
  all: destruct (lower (strip answer) =? "y")%string; simpl;
    [| rewrite log2, log1; repeat split; reflexivity].
  all: rewrite bus2, bus1; simpl.
  all: destruct (ChangeId current_id new_id b4) as [[err |] b5]; simpl;
    [rewrite log2, log1; repeat split; reflexivity |].
  all: destruct (PingServo new_id b5) as [[|] b6]; simpl;
    rewrite log2, log1; repeat split; reflexivity.
Qed.

(** X13. Whenever a run of the interactive mode holds an ID write, the
    function returns normally, so the exit status is 0 also when the
    write failed.  Nothing was pinged before the write; after it comes
    one verification ping of the new ID when the write succeeded, and
    nothing when it failed. *)
Theorem interactive_write_ends_normally env inst kb b c n r :
  let run := interactive_mode (boot env inst kb b) in
  In (Change c n r) (calls (snd run)) ->
  fst run = Ret tt
  /\ exit_status (fst run) = 0
  /\ exists before after,
      calls (snd run) = before ++ Change c n r :: after
      /\ (forall id answered, ~ In (Ping id answered) before)
      /\ match r with
         | None => exists verified, after = [Ping n verified]
         | Some _ => after = []
         end.
Proof.
  intros run issued. subst run.
  pose proof (interactive_mode_runs env inst kb b) as shape. cbv zeta in *.
  destruct shape; unfold located in *; simpl in *;
    try (exfalso; intuition discriminate).
  - assert (c = current_id /\ n = new_id /\ r = None) as (-> & -> & ->)
      by (intuition (discriminate || congruence)).
    repeat split.
    exists [Import_st3215; Open port None; Scan [current_id];
            Position current_id p; Voltage current_id v],
           [Ping new_id verified].
    repeat split; eauto.
    intros id answered seen. simpl in seen. intuition discriminate.
  - assert (c = current_id /\ n = new_id /\ r = Some err) as (-> & -> & ->)
      by (intuition (discriminate || congruence)).
    repeat split.
    exists [Import_st3215; Open port None; Scan [current_id];
            Position current_id p; Voltage current_id v], [].
    repeat split; eauto.
    intros id answered seen. simpl in seen. intuition discriminate.
Qed.

(** X20. Interactive mode, one servo found, and the input ends after lines
    that were all turned down: the last prompt dies of [EOFError], which
    nobody catches, so the process ends with status 1.  All the input
    was read and nothing was written. *)
Theorem exhausted_input_raises env kb b port b1 b2 current_id :
  let run := interactive_mode (boot env true kb b) in
  env "ST3215_DEV" = Some port -> port <> EmptyString ->
  ST3215 port b = (None, b1) ->
  ListServos b1 = ([current_id], b2) ->
  forallb rejected kb = true ->
  fst run = Raise EOFError
  /\ exit_status (fst run) = 1
  /\ stdin (snd run) = []
  /\ writes (calls (snd run)) = [].
Proof.
  intros run configured named opens single bad. subst run.
  unfold interactive_mode, find_single_servo, get_serial_port, import_st3215,
    getenv, try_ST3215, list_ids, read_position, read_voltage,
    print, bind, ret, raise, boot.
  simpl. rewrite configured.
  destruct port as [| c p]; [contradiction |]; simpl.
  rewrite opens; simpl. rewrite single; simpl.
  do 2 next_call.
  all: match goal with
       | |- context [prompt_loop ?c ?k ?w] =>
           destruct (rejected_lines c kb w [] (eq_sym (app_nil_r kb)) bad)
             as (w1 & steps & typed1 & [log1 bus1] & _);
           rewrite app_nil_r in steps; rewrite steps
       end.
  all: destruct w1 as [env1 inst1 kb1 out1 calls1 wire1]; simpl in *;
    subst kb1 calls1.
  all: unfold turn, except_ValueError, bind, input, raise; simpl.
  all: repeat split.
Qed.

End InteractiveMore.

(** ** More on the reporter *)

Section ReporterMore.
Context {D : Driver} {I : Interpreter}.
Import Py PyStr custom_list_py.

(** One pass of the loop body: five reads of the servo in the order of the
    source, whatever each of them answers; nothing is read from the
    terminal, and the pass ends normally. *)
Lemma report_run servo_id w :
  exists reads w',
    report servo_id w = (Ret tt, w')
    /\ calls w' = calls w ++ reads
    /\ map read_of reads = map Some (telemetry servo_id)
    /\ stdin w' = stdin w
    /\ exists out, stdout w' = stdout w ++ out.
Proof.
  unfold report, read_position, read_voltage, read_temperature, read_mode,
    read_load, print, bind, ret, telemetry.
  destruct w as [env inst kb out log b]; simpl.
  destruct (ReadPosition servo_id b) as [p b1]; simpl.
  destruct p; simpl.
  all: match goal with
       | |- context [ReadVoltage ?i ?x] => destruct (ReadVoltage i x) as [v b2]
       end; simpl; destruct v; simpl.
  all: match goal with
       | |- context [ReadTemperature ?i ?x] =>
           destruct (ReadTemperature i x) as [t b3]
       end; simpl; destruct t; simpl.
  all: match goal with
       | |- context [ReadMode ?i ?x] => destruct (ReadMode i x) as [m b4]
       end; simpl; destruct m; simpl.
  all: match goal with
       | |- context [ReadLoad ?i ?x] => destruct (ReadLoad i x) as [l b5]
       end; simpl; destruct l; simpl.
  all: eexists; eexists; split; [reflexivity |]; simpl.
  all: repeat rewrite <- app_assoc; simpl.
  all: split; [reflexivity |].
  all: split; [reflexivity |].
  all: split; [reflexivity |].
  all: eexists; reflexivity.
Qed.

(** The loop over the scan: one pass per ID, in the order of the scan. *)
Lemma for_each_report_run servo_ids :
  forall w,
  exists reads w',
    for_each servo_ids report w = (Ret tt, w')
    /\ calls w' = calls w ++ reads
    /\ map read_of reads = map Some (flat_map telemetry servo_ids)
    /\ stdin w' = stdin w
    /\ exists out, stdout w' = stdout w ++ out.
Proof.
  induction servo_ids as [| servo_id rest IH]; intros w.
  - exists [], w. simpl. rewrite !app_nil_r.
    repeat split. exists []. rewrite app_nil_r. reflexivity.
  - destruct (report_run servo_id w)
      as (reads1 & w1 & pass & log1 & kinds1 & typed1 & out1 & printed1).
    destruct (IH w1)
      as (reads2 & w2 & passes & log2 & kinds2 & typed2 & out2 & printed2).
    exists (reads1 ++ reads2), w2.
    simpl for_each. unfold bind at 1. rewrite pass, passes.
    repeat split.
    + rewrite log2, log1, app_assoc. reflexivity.
    + simpl flat_map. rewrite !map_app, kinds1, kinds2. reflexivity.
    + congruence.
    + exists (out1 ++ out2). rewrite printed2, printed1, app_assoc. reflexivity.
Qed.

(** Reads are neither pings nor writes. *)
Lemma reads_are_quiet (reads : trace) :
  forall kinds,
    map read_of reads = map Some kinds ->
    forallb (fun c => negb (is_ping c || is_change c)) reads = true.
Proof.
  induction reads as [| c reads IH]; intros kinds same; [reflexivity |].
  destruct kinds as [| k kinds]; [discriminate |].
  simpl in same. injection same as kind rest.
  simpl. rewrite (IH kinds rest).
  destruct c; try discriminate; reflexivity.
Qed.

(** X14. The reporter on a configured host whose port opens: after the one
    scan it reads position, voltage, temperature, mode and load of every
    ID of the scan, in the order of the scan and in this order of fields,
    five reads per servo whatever the reads before answered; that is all
    it asks of the driver.  It reads no input and returns normally. *)
Theorem reporter_reads_every_field env kb b port b1 ids b2 :
  let run := list_servos (boot env true kb b) in
  env "ST3215_DEV" = Some port -> port <> EmptyString ->
  ST3215 port b = (None, b1) ->
  ListServos b1 = (ids, b2) ->
  fst run = Ret tt
  /\ stdin (snd run) = kb
  /\ exists reads,
      calls (snd run) = [Import_st3215; Open port None; Scan ids] ++ reads
      /\ map read_of reads = map Some (flat_map telemetry ids).
Proof.
  intros run configured named opens scan. subst run.
  unfold list_servos, get_serial_port, import_st3215, getenv, try_ST3215,
    list_ids, print, bind, ret, raise, boot.
  simpl. rewrite configured.
  destruct port as [| c p]; [contradiction |]; simpl.
  rewrite opens; simpl. rewrite scan; simpl.
  destruct ids as [| first rest].
  - simpl. repeat split. exists []. split; reflexivity.
  - match goal with
    | |- context [for_each ?l report ?w] =>
        destruct (for_each_report_run l w)
          as (reads & w' & passes & log & kinds & typed & _);
        rewrite passes
    end.
    simpl in *. repeat split; [assumption |].
    exists reads. rewrite log. split; [reflexivity | assumption].
Qed.

(** X15. The reporter is read-only and does not fail on the bus: no run of
    it holds a ping or an ID write, and it raises in two cases only, the
    missing driver package and the missing port configuration.  With
    both in place it returns normally, also when the port cannot be
    opened or a read fails, so the exit status is 0. *)
Theorem reporter_is_read_only env inst kb b :
  let run := list_servos (boot env inst kb b) in
  forallb (fun c => negb (is_ping c || is_change c)) (calls (snd run)) = true
  /\ match fst run with
     | Ret _ => inst = true /\ configured_port env <> None
     | Raise e =>
         (inst = false /\ e = ImportError)
         \/ (inst = true /\ configured_port env = None
             /\ e = configuration_error)
     end.
Proof.
  unfold list_servos, get_serial_port, import_st3215, getenv, try_ST3215,
    list_ids, print, bind, ret, raise, boot, configured_port,
    configuration_error.
  simpl.
  destruct inst; simpl; [| split; [reflexivity | left; split; reflexivity]].
  destruct (env "ST3215_DEV") as [[| c p] |]; simpl;
    try (split; [reflexivity | right; repeat split; reflexivity]).
  destruct (ST3215 (String c p) b) as [[e |] b1]; simpl;
    [split; [reflexivity | split; [reflexivity | discriminate]] |].
  destruct (ListServos b1) as [ids b2]; simpl.
  destruct ids as [| first rest];
    [split; [reflexivity | split; [reflexivity | discriminate]] |].
  match goal with
  | |- context [for_each ?l report ?w] =>
      destruct (for_each_report_run l w)
        as (reads & w' & passes & log & kinds & _);
      rewrite passes
  end.
  simpl in *. rewrite log. simpl.
  split; [| split; [reflexivity | discriminate]].
  exact (reads_are_quiet reads (flat_map telemetry (first :: rest)) kinds).
Qed.

(** X16. What the reporter prints about the scan, on a configured host
    whose port opens.  An empty scan gives the single line "No servos
    found on the bus." and no count.  Otherwise the number of servos
    announced before the per-servo blocks and the total printed as the
    last line are both the length of the scan, whatever the reads
    answered. *)
Theorem reporter_counts_the_scan env kb b port b1 ids b2 :
  let run := list_servos (boot env true kb b) in
  let opening :=
    [Line ("Connecting to serial port: " ++ port); Line (repeat_str "-" 50);
     Line "Scanning for servos..."] in
  let count := str (Z.of_nat (List.length ids)) in
  env "ST3215_DEV" = Some port -> port <> EmptyString ->
  ST3215 port b = (None, b1) ->
  ListServos b1 = (ids, b2) ->
  match ids with
  | [] => stdout (snd run) = opening ++ [Line "No servos found on the bus."]
  | _ :: _ =>
      exists blocks,
        stdout (snd run)
        = opening
            ++ [Line (nl ++ "Found " ++ count ++ " servo(s):" ++ nl)]
            ++ blocks
            ++ [Line (repeat_str "-" 50);
                Line ("Scan complete. Total servos found: " ++ count)]
  end.
Proof.
  intros run opening count configured named opens scan. subst run opening count.
  unfold list_servos, get_serial_port, import_st3215, getenv, try_ST3215,
    list_ids, print, bind, ret, raise, boot.
  simpl. rewrite configured.
  destruct port as [| c p]; [contradiction |]; simpl.
  rewrite opens; simpl. rewrite scan; simpl.
  destruct ids as [| first rest]; [reflexivity |].
  match goal with
  | |- context [for_each ?l report ?w] =>
      destruct (for_each_report_run l w)
        as (reads & w' & passes & _ & _ & _ & blocks & printed);
      rewrite passes
  end.
  simpl in *. exists blocks. rewrite printed.
  repeat rewrite <- app_assoc. reflexivity.
Qed.


End ReporterMore.

(** ** A port that cannot be opened *)

Section ClosedPort.
Context {D : Driver} {I : Interpreter}.
Import Py PyStr.

(** X17. When the driver refuses to open the configured port, each of the
    three workflows prints the port and the driver's detail and stops:
    the refused open is the last thing asked of the driver, no input is
    read, [change_servo_id] returns [False] and the reporter and the
    interactive mode return normally. *)
Theorem closed_port_stops_every_workflow env kb b port detail b1 current_id new_id :
  let direct := change_id_py.change_servo_id current_id new_id (boot env true kb b) in
  let interactive := change_id_py.interactive_mode (boot env true kb b) in
  let reporter := custom_list_py.list_servos (boot env true kb b) in
  env "ST3215_DEV" = Some port -> port <> EmptyString ->
  ST3215 port b = (Some detail, b1) ->
  (fst direct = Ret false /\ stops_at_refusal port detail kb direct)
  /\ (fst interactive = Ret tt /\ stops_at_refusal port detail kb interactive)
  /\ (fst reporter = Ret tt /\ stops_at_refusal port detail kb reporter).
Proof.
  intros direct interactive reporter configured named refused.
  subst direct interactive reporter.
  unfold stops_at_refusal, reports_refusal,
    change_id_py.change_servo_id, change_id_py.interactive_mode,
    custom_list_py.list_servos, change_id_py.get_serial_port,
    custom_list_py.get_serial_port, import_st3215, getenv, try_ST3215,
    print, bind, ret, raise, boot.
  simpl. rewrite configured.
  destruct port as [| c p]; [contradiction |]; simpl.
  rewrite refused; simpl.
  repeat split.
  - eexists [_; _]. reflexivity.
  - eexists [_; _; _; _; _; _]. reflexivity.
  - eexists [_; _]. reflexivity.
Qed.

End ClosedPort.

(** ** Runs on the bench driver *)

Import Bench.
Import Py PyStr change_id_py.

(** Scenario A of the specification: one servo at 5, moved to the free
    address 9. *)
Example scenario_A :
  let run := main ["change_id.py"; "5"; "9"] (boot configured true [] [5]) in
  fst run = Raise (SystemExit 0)
  /\ calls (snd run)
     = [Import_st3215; Open "/dev/ttyACM0" None; Ping 5 true; Ping 9 false;
        Change 5 9 None; Ping 9 true]
  /\ wire (snd run) = [9].
Proof. vm_compute. auto. Qed.

(** Scenario B: two servos on the bus, interactive mode stops at the scan. *)
Example scenario_B :
  let run := main ["change_id.py"] (boot configured true ["9"; "y"] [3; 7]) in
  fst run = Ret tt
  /\ calls (snd run) = [Import_st3215; Open "/dev/ttyACM0" None; Scan [3; 7]]
  /\ stdin (snd run) = ["9"; "y"].
Proof. vm_compute. auto. Qed.

(** Scenario D: nobody answers at the current ID. *)
Example scenario_D :
  let run := main ["change_id.py"; "4"; "9"] (boot configured true [] [5]) in
  exit_status (fst run) = 1
  /\ calls (snd run)
     = [Import_st3215; Open "/dev/ttyACM0" None; Ping 4 false; Scan [5]].
Proof. vm_compute. auto. Qed.

(** An interactive session: two lines turned down, then 9, confirmed. *)
Example interactive_session :
  let run := main ["change_id.py"]
                  (boot configured true ["254"; "nine"; " 9 "; "Y"] [5]) in
  fst run = Ret tt
  /\ writes (calls (snd run)) = [Change 5 9 None]
  /\ wire (snd run) = [9].
Proof. vm_compute. auto. Qed.

Lemma collision_guard_witness :
  7 <> 5
  /\ In (Ping 7 true)
        (before_write (calls (snd (change_servo_id 5 7 (boot configured true [] [5; 7])))))
  /\ fst (change_servo_id 5 7 (boot configured true [] [5; 7])) = Ret false
  /\ writes (calls (snd (change_servo_id 5 7 (boot configured true [] [5; 7])))) = [].
Proof.
  assert (differ : 7 <> 5) by lia.
  assert (occupied :
            In (Ping 7 true)
               (before_write
                  (calls (snd (change_servo_id 5 7 (boot configured true [] [5; 7]))))))
    by (vm_compute; tauto).
  split; [exact differ | split; [exact occupied |]].
  exact (@collision_guard driver configured true [] [5; 7] 5 7 differ occupied).
Defined.

Lemma absent_servo_is_never_written_witness :
  In (Ping 4 false)
     (before_write (calls (snd (change_servo_id 4 9 (boot configured true [] [5])))))
  /\ fst (change_servo_id 4 9 (boot configured true [] [5])) = Ret false
  /\ writes (calls (snd (change_servo_id 4 9 (boot configured true [] [5])))) = [].
Proof.
  assert (absent :
            In (Ping 4 false)
               (before_write
                  (calls (snd (change_servo_id 4 9 (boot configured true [] [5]))))))
    by (vm_compute; tauto).
  split; [exact absent |].
  destruct (@absent_servo_is_never_written driver configured true [] [5] 4 9 absent)
    as (failed & unwritten & _).
  split; [exact failed | exact unwritten].
Defined.

Lemma write_result_is_authoritative_witness :
  In (Change 5 9 None) (calls (snd (change_servo_id 5 9 (boot configured true [] [5]))))
  /\ fst (change_servo_id 5 9 (boot configured true [] [5])) = Ret true.
Proof.
  assert (issued :
            In (Change 5 9 None)
               (calls (snd (change_servo_id 5 9 (boot configured true [] [5])))))
    by (vm_compute; tauto).
  split; [exact issued |].
  exact (proj1 (@write_result_is_authoritative driver configured true [] [5] 5 9 None issued)).
Defined.

Lemma same_id_short_circuits_witness :
  let run := interactive_mode (boot configured true ["0"; "five"; " 5 "; "y"] [5]) in
  fst run = Ret tt
  /\ ~ In confirm_prompt (stdout (snd run))
  /\ stdin (snd run) = ["y"]
  /\ writes (calls (snd run)) = [].
Proof.
  assert (named : "/dev/ttyACM0" <> EmptyString) by discriminate.
  destruct (@same_id_short_circuits driver interpreter
              configured ["0"; "five"; " 5 "; "y"] [5] "/dev/ttyACM0" [5] [5] 5
              ["0"; "five"] " 5 " ["y"]
              eq_refl named eq_refl eq_refl eq_refl eq_refl eq_refl eq_refl)
    as (returned & unasked & unread & unwritten & _).
  repeat split; assumption.
Defined.

Lemma direct_mode_equal_ids_proceed_witness :
  let run := main ["change_id.py"; "2"; "2"] (boot configured true [] [2]) in
  fst run = Raise (SystemExit 0)
  /\ exists after,
      calls (snd run)
      = [Import_st3215; Open "/dev/ttyACM0" None; Ping 2 true; Change 2 2 None]
          ++ after.
Proof.
  assert (named : "/dev/ttyACM0" <> EmptyString) by discriminate.
  exact (@direct_mode_equal_ids_proceed driver interpreter
           configured [] [2] "change_id.py" "2" "2" 2 "/dev/ttyACM0" [2] [2]
           eq_refl eq_refl eq_refl eq_refl named eq_refl eq_refl).
Defined.

Lemma out_of_range_is_rejected_witness :
  let run := main ["change_id.py"; "5"; "254"] (boot configured true [] [5]) in
  calls (snd run) = []
  /\ fst run = Raise (SystemExit 1)
  /\ stdout (snd run) = [Line "Error: New ID must be between 1 and 253"].
Proof.
  destruct (@out_of_range_is_rejected driver interpreter
              configured true [] [5] "change_id.py" "5" "254" 5 254
              eq_refl eq_refl (or_intror eq_refl))
    as (quiet & status & _ & printed & _).
  repeat split; assumption.
Defined.

Lemma missing_port_fails_after_import_witness :
  unconfigured "ST3215_DEV" = None
  /\ fails_after_import (custom_list_py.main (boot unconfigured true [] [5]))
  /\ fails_after_import (main ["change_id.py"] (boot unconfigured true [] [5]))
  /\ fails_after_import (main ["change_id.py"; "5"; "9"] (boot unconfigured true [] [5])).
Proof.
  destruct (@missing_port_fails_after_import driver interpreter unconfigured [] [5] (or_introl eq_refl))
    as (reporter & interactive & direct).
  split; [reflexivity |].
  split; [exact reporter |].
  split; [exact (interactive "change_id.py") |].
  exact (direct "change_id.py" "5" "9" 5 9 eq_refl eq_refl eq_refl eq_refl).
Defined.

Lemma position_is_reported_in_degrees_witness :
  0 <= 2048 <= 4095
  /\ exists t,
      DegreeCheck.nearest_tenth 2048 t = true
      /\ In (Line (DegreeCheck.degree_line 2048 t))
            (stdout (snd (custom_list_py.list_servos (boot configured true [] [3])))).
Proof.
  assert (range : 0 <= 2048 <= 4095) by lia.
  split; [exact range |].
  destruct (@position_is_reported_in_degrees driver interpreter 2048 range)
    as (t & near & _ & _ & _ & _ & _ & _ & _ & shown).
  exists t. split; [exact near |].
  apply (shown configured true [] [3] 3).
  vm_compute. tauto.
Defined.

(** C3, as stated, fails on the bench driver: with no servo and with two
    servos on the bus the locator returns the same value, so no pair of
    distinct results can stand for the two cases. *)
Lemma locator_results_coincide : ~ @told_apart_by_result driver.
Proof.
  intros (none_found & ambiguous & distinct & spec).
  pose proof (spec (boot unconfigured true [] [])) as (empty & _ & _).
  pose proof (spec (boot unconfigured true [] [3; 7])) as (_ & two & _).
  apply distinct.
  transitivity (@Ret (option Z) None).
  - symmetry. apply empty. reflexivity.
  - apply two. vm_compute. lia.
Qed.

(** C5, as stated, fails when the servo that is located has an ID outside
    1..253: with a servo at 0 on the bus, entering 0 is answered with the
    range error and the loop asks again; the run below goes on to 9,
    asks for the confirmation and writes. *)
Lemma located_id_out_of_range_is_asked_again :
  let run := interactive_mode (boot configured true ["0"; "9"; "y"] [0]) in
  In (Scan [0]) (calls (snd run))
  /\ parse_int (strip "0") = Some 0
  /\ writes (calls (snd run)) = [Change 0 9 None]
  /\ ~ short_circuits run.
Proof.
  repeat split; try (vm_compute; tauto).
Qed.

(** C7, as stated, fails: with the variable unset both tools have imported
    the driver package by the time the configuration error is raised, and
    the changer called with an ID out of range never gets to the
    configuration error at all. *)
Lemma import_precedes_configuration_error :
  ~ fails_before_import (main ["change_id.py"] (boot unconfigured true [] [5]))
  /\ ~ fails_before_import (custom_list_py.main (boot unconfigured true [] [5]))
  /\ ~ fails_before_import (main ["change_id.py"; "0"; "5"] (boot unconfigured true [] [5])).
Proof.
  unfold fails_before_import.
  repeat split; intros [raised log]; vm_compute in raised, log; discriminate.
Qed.

(** C8, as stated, fails: an ID out of range is answered with one error
    line, and the usage text is not printed. *)
Lemma out_of_range_prints_no_usage :
  ~ rejected_with_usage (main ["change_id.py"; "0"; "5"] (boot configured true [] [5])).
Proof.
  intros (_ & printed & _). vm_compute in printed.
  destruct printed as [same | []]. discriminate.
Qed.

(** ** The further properties on the bench driver *)

Import BenchHosts.

Lemma write_follows_the_checks_witness :
  let log := calls (snd (change_servo_id 5 9 (boot configured true [] [5; 7]))) in
  In (Change 5 9 None) log
  /\ In (Ping 5 true) (before_write log)
  /\ (5 <> 9 -> In (Ping 9 false) (before_write log)).
Proof.
  assert (issued :
            In (Change 5 9 None)
               (calls (snd (change_servo_id 5 9 (boot configured true [] [5; 7])))))
    by (vm_compute; tauto).
  destruct (@write_follows_the_checks driver configured true [] [5; 7] 5 9 5 9 None
              issued)
    as (_ & _ & pinged & free & _).
  split; [exact issued | split; [exact pinged | exact free]].
Defined.

Lemma wrong_argument_count_prints_usage_witness :
  List.length ["change_id.py"; "5"] <> 1%nat
  /\ List.length ["change_id.py"; "5"] <> 3%nat
  /\ main ["change_id.py"; "5"] (boot configured true [] [5])
     = (Raise (SystemExit 1), emit (Line usage) (boot configured true [] [5])).
Proof.
  assert (not_one : List.length ["change_id.py"; "5"] <> 1%nat) by discriminate.
  assert (not_three : List.length ["change_id.py"; "5"] <> 3%nat) by discriminate.
  split; [exact not_one | split; [exact not_three |]].
  exact (@wrong_argument_count_prints_usage driver interpreter ["change_id.py"; "5"]
           (boot configured true [] [5]) not_one not_three).
Defined.

Lemma non_integer_arguments_print_usage_witness :
  parse_int "five" = None
  /\ main ["change_id.py"; "0"; "five"] (boot configured true [] [5])
     = (Raise (SystemExit 1),
        emit (Line usage)
          (emit (Line "Error: IDs must be integers") (boot configured true [] [5]))).
Proof.
  split; [reflexivity |].
  exact (@non_integer_arguments_print_usage driver interpreter ["change_id.py"; "0"; "five"]
           (boot configured true [] [5]) eq_refl (or_intror eq_refl)).
Defined.

Lemma written_ids_are_in_range_witness :
  In (Change 5 9 None)
     (calls (snd (main ["change_id.py"] (boot configured true ["9"; "y"] [5]))))
  /\ valid_id 9 = true /\ 5 <> 9.
Proof.
  assert (issued :
            In (Change 5 9 None)
               (calls (snd (main ["change_id.py"]
                                 (boot configured true ["9"; "y"] [5])))))
    by (vm_compute; tauto).
  destruct (@written_ids_are_in_range driver interpreter ["change_id.py"] configured true
              ["9"; "y"] [5] 5 9 None issued) as (in_range & _ & other).
  split; [exact issued | split; [exact in_range | exact (other eq_refl)]].
Defined.

Lemma no_write_without_a_yes_witness :
  forallb (fun line => negb (affirms line)) ["9"; "yes"; "y es"] = true
  /\ writes (calls (snd (interactive_mode
                           (boot configured true ["9"; "yes"; "y es"] [5])))) = [].
Proof.
  split; [reflexivity |].
  exact (@no_write_without_a_yes driver interpreter configured true ["9"; "yes"; "y es"] [5]
           eq_refl).
Defined.

Lemma scan_without_a_single_servo_stops_witness :
  let run := interactive_mode (boot configured true ["9"; "y"] [3; 7]) in
  fst run = Ret tt
  /\ calls (snd run) = [Import_st3215; Open "/dev/ttyACM0" None; Scan [3; 7]]
  /\ stdin (snd run) = ["9"; "y"].
Proof.
  assert (named : "/dev/ttyACM0" <> EmptyString) by discriminate.
  assert (not_one : List.length [3; 7] <> 1%nat) by discriminate.
  destruct (@scan_without_a_single_servo_stops driver interpreter configured ["9"; "y"] [3; 7]
              "/dev/ttyACM0" [3; 7] [3; 7] [3; 7]
              eq_refl named eq_refl eq_refl not_one)
    as (returned & log & unread & _).
  split; [exact returned | split; [exact log | exact unread]].
Defined.

Lemma quit_cancels_witness :
  let run := interactive_mode (boot configured true ["300"; " Q "; "y"] [5]) in
  fst run = Ret tt
  /\ stdin (snd run) = ["y"]
  /\ writes (calls (snd run)) = [].
Proof.
  assert (named : "/dev/ttyACM0" <> EmptyString) by discriminate.
  destruct (@quit_cancels driver interpreter configured ["300"; " Q "; "y"] [5]
              "/dev/ttyACM0" [5] [5] 5 ["300"] " Q " ["y"]
              eq_refl named eq_refl eq_refl eq_refl eq_refl eq_refl)
    as (returned & _ & _ & unread & unwritten).
  split; [exact returned | split; [exact unread | exact unwritten]].
Defined.

Lemma confirmation_decides_witness :
  let run := interactive_mode (boot configured true ["0"; "9"; "n"; "y"] [5]) in
  9 <> 5
  /\ fst run = Ret tt
  /\ stdin (snd run) = ["y"]
  /\ calls (snd run) = located "/dev/ttyACM0" 5 (Some 2048) (Some (15 # 2)).
Proof.
  assert (named : "/dev/ttyACM0" <> EmptyString) by discriminate.
  assert (other : 9 <> 5) by lia.
  destruct (@confirmation_decides driver interpreter configured ["0"; "9"; "n"; "y"] [5]
              "/dev/ttyACM0" [5] [5] [5] [5] 5 (Some 2048) (Some (15 # 2))
              ["0"] "9" "n" ["y"] 9
              eq_refl named eq_refl eq_refl eq_refl eq_refl eq_refl eq_refl
              eq_refl eq_refl eq_refl other)
    as (returned & unread & log).
  split; [exact other | split; [exact returned | split; [exact unread |]]].
  rewrite log. reflexivity.
Defined.

Lemma interactive_write_ends_normally_witness :
  In (Change 5 9 None)
     (calls (snd (interactive_mode (boot configured true ["9"; "y"] [5]))))
  /\ fst (interactive_mode (boot configured true ["9"; "y"] [5])) = Ret tt.
Proof.
  assert (issued :
            In (Change 5 9 None)
               (calls (snd (interactive_mode (boot configured true ["9"; "y"] [5])))))
    by (vm_compute; tauto).
  split; [exact issued |].
  exact (proj1 (@interactive_write_ends_normally driver interpreter configured true ["9"; "y"]
                  [5] 5 9 None issued)).
Defined.

Lemma exhausted_input_raises_witness :
  forallb rejected ["0"; "254"; "nine"] = true
  /\ fst (interactive_mode (boot configured true ["0"; "254"; "nine"] [5]))
     = Raise EOFError
  /\ writes (calls (snd (interactive_mode
                           (boot configured true ["0"; "254"; "nine"] [5])))) = [].
Proof.
  assert (named : "/dev/ttyACM0" <> EmptyString) by discriminate.
  destruct (@exhausted_input_raises driver interpreter configured ["0"; "254"; "nine"] [5]
              "/dev/ttyACM0" [5] [5] 5 eq_refl named eq_refl eq_refl eq_refl)
    as (raised & _ & _ & unwritten).
  split; [reflexivity | split; [exact raised | exact unwritten]].
Defined.

Lemma reporter_reads_every_field_witness :
  let run := custom_list_py.list_servos (boot configured true [] [3; 7]) in
  fst run = Ret tt
  /\ exists reads,
      calls (snd run) = [Import_st3215; Open "/dev/ttyACM0" None; Scan [3; 7]] ++ reads
      /\ map read_of reads = map Some (telemetry 3 ++ telemetry 7).
Proof.
  assert (named : "/dev/ttyACM0" <> EmptyString) by discriminate.
  destruct (@reporter_reads_every_field driver interpreter configured [] [3; 7]
              "/dev/ttyACM0" [3; 7] [3; 7] [3; 7] eq_refl named eq_refl eq_refl)
    as (returned & _ & reads & log & kinds).
  split; [exact returned |].
  exists reads. split; [exact log | exact kinds].
Defined.

Lemma reporter_counts_the_scan_witness :
  exists blocks,
    stdout (snd (custom_list_py.list_servos (boot configured true [] [3; 7])))
    = [Line "Connecting to serial port: /dev/ttyACM0";
       Line (repeat_str "-" 50); Line "Scanning for servos..."]
        ++ [Line (nl ++ "Found 2 servo(s):" ++ nl)]
        ++ blocks
        ++ [Line (repeat_str "-" 50); Line "Scan complete. Total servos found: 2"].
Proof.
  assert (named : "/dev/ttyACM0" <> EmptyString) by discriminate.
  exact (@reporter_counts_the_scan driver interpreter configured [] [3; 7]
           "/dev/ttyACM0" [3; 7] [3; 7] [3; 7] eq_refl named eq_refl eq_refl).
Defined.

Lemma closed_port_stops_every_workflow_witness :
  fst (change_servo_id 5 9 (boot misconfigured true ["9"] [5])) = Ret false
  /\ calls (snd (interactive_mode (boot misconfigured true ["9"] [5])))
     = [Import_st3215;
        Open "/dev/missing" (Some "could not open port /dev/missing")]
  /\ fst (custom_list_py.list_servos (boot misconfigured true ["9"] [5])) = Ret tt.
Proof.
  assert (named : "/dev/missing" <> EmptyString) by discriminate.
  destruct (@closed_port_stops_every_workflow driver interpreter misconfigured ["9"] [5]
              "/dev/missing" "could not open port /dev/missing" [5] 5 9
              eq_refl named eq_refl)
    as ((failed & _) & (_ & log & _) & (reported & _)).
  split; [exact failed | split; [exact log | exact reported]].
Defined.

Lemma no_write_to_an_answering_address_witness :
  let log := calls (snd (main ["change_id.py"; "5"; "9"] (boot configured true [] [5]))) in
  In (Change 5 9 None) log
  /\ 5 <> 9
  /\ ~ In (Ping 9 true) (before_write log).
Proof.
  assert (issued :
            In (Change 5 9 None)
               (calls (snd (main ["change_id.py"; "5"; "9"]
                                 (boot configured true [] [5])))))
    by (vm_compute; tauto).
  assert (differ : 5 <> 9) by lia.
  split; [exact issued | split; [exact differ |]].
  exact (@no_write_to_an_answering_address driver interpreter ["change_id.py"; "5"; "9"]
           configured true [] [5] 5 9 None issued differ).
Defined.
